(** * Tudat: rotational ephemerides and aerodynamic coefficient set-up

    A shallow embedding of

    - [Tudat/Astrodynamics/Ephemerides/rotationalEphemeris.cpp]
      (conversion between rotation-matrix derivative and angular velocity),
    - [tudat/astro/ephemerides/aeordynamicAngleRotationalEphemeris.h]
      (rotation model closed over aerodynamic angles),
    - [Tudat/InputOutput/aerodynamicCoefficientReader.h]
      (merging of per-axis coefficient tables),
    - [Tudat/SimulationSetup/EnvironmentSetup/createFlightConditions.cpp]
      (factory of aerodynamic coefficient interfaces),

    followed by the properties established for them.

    Conventions.  A C++ [double] is a binary64 float ([PrimFloat.float]);
    [TUDAT_NAN] is [nan].  A function that can [throw] returns a [result];
    the exception leaves the object it was called on as it was.  Calls into
    collaborating classes whose code is outside these files are parameters
    of the section that uses them. *)

From Stdlib Require Import String ZArith List Lia Bool.
From Stdlib Require Import Floats.
From Stdlib Require Import Reals Lra Psatz.
Import ListNotations.

Set Implicit Arguments.

(** ** Errors *)

(** One constructor per [throw std::runtime_error] site of the embedded
    files (the message is quoted), named after the error taxonomy of the
    design where it has a name for it. *)
Inductive error : Type :=
| InconsistentInputSizes
    (* "Error when creating N-D merged multi-array, input sizes are inconsistent" *)
| WrongNumberOfFiles
    (* "Error when reading 1-Dimensional aeroynamic coefficients, wrong number of files" *)
| InconsistentIndependentVariables
    (* "Error when reading 1-Dimensional aeroynamic coefficients, inconsistent aerodynamic coefficients" *)
| NoFilesRead
    (* "Error when reading aerodynamic coefficients, no files read" *)
| FileNotReadable (fileName : string)
    (* failure inside MultiArrayFileReader, a collaborator *)
| IndexOutOfRange
    (* element access outside a multi-array or map::at on a missing key *)
| UnsupportedDimensionality (numberOfDimensions : Z)
    (* "Error when making tabulated aerodynamic coefficient interface, N dimensions not yet implemented" *)
| UnsupportedFileDimensionality (numberOfIndependentVariables : Z)
    (* "Error when reading aerodynamic coefficient settings from file, found N independent variables, up to 3 currently supported" *)
| SettingsTypeMismatch (expectedDimensions : Z)
    (* "Error, expected tabulated aerodynamic coefficients of size N for body ..." *)
| ConstantSettingsTypeMismatch
    (* "Error, expected constant aerodynamic coefficients for body ..." *)
| UnrecognizedSettings
    (* "Error, do not recognize aerodynamic coefficient settings for ..." *)
| UnrecognizedControlSurfaceSettings
    (* "Error, do not recognize control surface aerodynamic coefficient settings for ..." *)
| ClosureNotReady
    (* query of the angle-based rotation model before an angle function is registered *)
| UnsupportedOperation.
    (* the design's name for a refused derivative query *)

Inductive result (A : Type) : Type :=
| Ok (a : A)
| Err (e : error).
Arguments Ok {A} a.
Arguments Err {A} e.

Definition bind {A B : Type} (r : result A) (k : A -> result B) : result B :=
  match r with
  | Ok a => k a
  | Err e => Err e
  end.

Declare Scope result_scope.
Delimit Scope result_scope with result.
Notation "'try!' x ':=' r 'in' k" := (bind r (fun x => k))
  (at level 10, x pattern, r at level 100, k at level 200)
  : result_scope.

(** Run [f] on each element in order, stopping at the first failure. *)
Fixpoint traverse {A B : Type} (f : A -> result B) (l : list A) : result (list B) :=
  match l with
  | [] => Ok []
  | a :: l' =>
      match f a with
      | Err e => Err e
      | Ok b =>
          match traverse f l' with
          | Err e => Err e
          | Ok bs => Ok (b :: bs)
          end
      end
  end.

Definition is_ok {A : Type} (r : result A) : bool :=
  match r with
  | Ok _ => true
  | Err _ => false
  end.

(** ** Scalars *)

(** Eigen's fixed-size types are templates over their scalar.  The two
    scalars used below: [double] as the code has it, and the real numbers
    for the exact kinematic identities. *)
Class Scalar (A : Type) : Type := {
  szero : A;
  sadd : A -> A -> A;
  smul : A -> A -> A;
  sopp : A -> A
}.

Definition double : Type := PrimFloat.float.

Definition TUDAT_NAN : double := PrimFloat.nan.

#[export] Instance Scalar_double : Scalar double := {
  szero := PrimFloat.zero;
  sadd := PrimFloat.add;
  smul := PrimFloat.mul;
  sopp := PrimFloat.opp
}.

#[export] Instance Scalar_real : Scalar R := {
  szero := 0%R;
  sadd := Rplus;
  smul := Rmult;
  sopp := Ropp
}.

(** ** Eigen values *)

Module Eigen.

Record Vector2 (A : Type) : Type := mkVector2 { v2_0 : A; v2_1 : A }.

Record Vector3 (A : Type) : Type := mkVector3 { vx : A; vy : A; vz : A }.

(** [mIJ] is the coefficient [( I, J )]: row [I], column [J]. *)
Record Matrix3 (A : Type) : Type := mkMatrix3 {
  m00 : A; m01 : A; m02 : A;
  m10 : A; m11 : A; m12 : A;
  m20 : A; m21 : A; m22 : A
}.

(** Coefficients in Eigen's constructor order [w, x, y, z]. *)
Record Quaternion (A : Type) : Type := mkQuaternion { qw : A; qx : A; qy : A; qz : A }.

(** [vector( i )] *)
Definition coeff {A : Type} (v : Vector3 A) (i : nat) : A :=
  match i with
  | 0 => vx v
  | 1 => vy v
  | _ => vz v
  end.

(** [Eigen::Matrix3d::Constant( value )] *)
Definition Constant {A : Type} (value : A) : Matrix3 A :=
  mkMatrix3 value value value value value value value value value.

(** [( Eigen::Vector3d( ) << a, v ).finished( )] with [v] a 2-vector *)
Definition comma_scalar_vector2 {A : Type} (a : A) (v : Vector2 A) : Vector3 A :=
  mkVector3 a (v2_0 v) (v2_1 v).

Section Arithmetic.
Context {A : Type} `{Scalar A}.

Definition dot3 (a0 a1 a2 b0 b1 b2 : A) : A :=
  sadd (sadd (smul a0 b0) (smul a1 b1)) (smul a2 b2).

(** [-M] *)
Definition mopp (M : Matrix3 A) : Matrix3 A :=
  mkMatrix3 (sopp (m00 M)) (sopp (m01 M)) (sopp (m02 M))
            (sopp (m10 M)) (sopp (m11 M)) (sopp (m12 M))
            (sopp (m20 M)) (sopp (m21 M)) (sopp (m22 M)).

(** [M * v] *)
Definition mulv (M : Matrix3 A) (v : Vector3 A) : Vector3 A :=
  mkVector3 (dot3 (m00 M) (m01 M) (m02 M) (vx v) (vy v) (vz v))
            (dot3 (m10 M) (m11 M) (m12 M) (vx v) (vy v) (vz v))
            (dot3 (m20 M) (m21 M) (m22 M) (vx v) (vy v) (vz v)).

(** [M * N] *)
Definition mul (M N : Matrix3 A) : Matrix3 A :=
  mkMatrix3
    (dot3 (m00 M) (m01 M) (m02 M) (m00 N) (m10 N) (m20 N))
    (dot3 (m00 M) (m01 M) (m02 M) (m01 N) (m11 N) (m21 N))
    (dot3 (m00 M) (m01 M) (m02 M) (m02 N) (m12 N) (m22 N))
    (dot3 (m10 M) (m11 M) (m12 M) (m00 N) (m10 N) (m20 N))
    (dot3 (m10 M) (m11 M) (m12 M) (m01 N) (m11 N) (m21 N))
    (dot3 (m10 M) (m11 M) (m12 M) (m02 N) (m12 N) (m22 N))
    (dot3 (m20 M) (m21 M) (m22 M) (m00 N) (m10 N) (m20 N))
    (dot3 (m20 M) (m21 M) (m22 M) (m01 N) (m11 N) (m21 N))
    (dot3 (m20 M) (m21 M) (m22 M) (m02 N) (m12 N) (m22 N)).

(** [M.transpose( )] *)
Definition transpose (M : Matrix3 A) : Matrix3 A :=
  mkMatrix3 (m00 M) (m10 M) (m20 M)
            (m01 M) (m11 M) (m21 M)
            (m02 M) (m12 M) (m22 M).

End Arithmetic.

End Eigen.

Import Eigen.

(** ** [linear_algebra] and [ephemerides]: frame kinematics *)

Module linear_algebra.
Section CrossProduct.
Context {A : Type} `{Scalar A}.

(** Modelled from the spec: [linear_algebra::getCrossProductMatrix] is
    defined in [linearAlgebra.h], outside the embedded files.  The design
    calls it [skew]: the matrix [S] with [S * u = vector x u], the usual
    skew-symmetric cross-product matrix. *)
Definition getCrossProductMatrix (vector : Vector3 A) : Matrix3 A :=
  mkMatrix3 szero              (sopp (vz vector)) (vy vector)
            (vz vector)         szero             (sopp (vx vector))
            (sopp (vy vector))  (vx vector)        szero.

End CrossProduct.
End linear_algebra.

Module ephemerides.
Section FrameKinematics.
Context {A : Type} `{Scalar A}.

(** rotationalEphemeris.cpp, lines 20-29. *)
Definition getRotationalVelocityVectorInBaseFrameFromMatrices
           (rotationToTargetFrame : Matrix3 A)
           (rotationMatrixToGlobalFrameDerivative : Matrix3 A) : Vector3 A :=
  let crossProductMatrix :=
    Eigen.mul rotationMatrixToGlobalFrameDerivative rotationToTargetFrame in
  mkVector3 (m21 crossProductMatrix) (m02 crossProductMatrix) (m10 crossProductMatrix).

(** rotationalEphemeris.cpp, lines 32-39.  The unary minus applies to
    the matrix, as C++ parses [-R * w]. *)
Definition getDerivativeOfRotationMatrixToFrame
           (rotationToTargetFrame : Matrix3 A)
           (rotationalVelocityVectorOfTargetFrameInBaseFrame : Vector3 A) : Matrix3 A :=
  Eigen.mul
    (linear_algebra.getCrossProductMatrix
       (Eigen.mulv (Eigen.mopp rotationToTargetFrame)
                   rotationalVelocityVectorOfTargetFrameInBaseFrame))
    rotationToTargetFrame.

End FrameKinematics.
End ephemerides.

(** ** [std::map< int, T >] *)

(** An ordered map with [int] keys: the list of its entries in iteration
    order, which is ascending key order. *)
Module std_map.
Section Map.
Context {V : Type}.

Definition t : Type := list (Z * V).

(** [m[ key ] = value] *)
Fixpoint insert (key : Z) (value : V) (m : t) : t :=
  match m with
  | [] => [(key, value)]
  | (k, v) :: m' =>
      if (key <? k)%Z then (key, value) :: m
      else if (key =? k)%Z then (key, value) :: m'
      else (k, v) :: insert key value m'
  end.

Fixpoint find (key : Z) (m : t) : option V :=
  match m with
  | [] => None
  | (k, v) :: m' => if (key =? k)%Z then Some v else find key m'
  end.

(** [m.count( key )] *)
Definition count (key : Z) (m : t) : nat :=
  match find key m with
  | Some _ => 1
  | None => 0
  end.

(** [m.at( key )] *)
Definition at_ (key : Z) (m : t) : result V :=
  match find key m with
  | Some v => Ok v
  | None => Err IndexOutOfRange
  end.

(** [m.size( )] *)
Definition size (m : t) : nat := length m.

(** [m.begin( )->second], for a non-empty map *)
Definition begin_second (m : t) : result V :=
  match m with
  | [] => Err IndexOutOfRange
  | (_, v) :: _ => Ok v
  end.

End Map.
Arguments t V : clear implicits.
End std_map.

(** ** [boost::multi_array< T, N >] *)

(** A multi-array in the default C storage order with zero index bases:
    its extents and its elements as [data( )] lays them out, last index
    fastest.  Sizes are natural numbers; they stand for the [size_t], [int]
    and [unsigned int] values of the code, which agree with them as long
    as the number of elements fits an [int]. *)
Module boost.

Record multi_array (T : Type) : Type := mkMultiArray {
  shape : list nat;
  data : list T
}.

Definition extent_product (extents : list nat) : nat :=
  fold_right Nat.mul 1 extents.

Fixpoint strides_of (extents : list nat) : list nat :=
  match extents with
  | [] => []
  | _ :: rest => extent_product rest :: strides_of rest
  end.

Section Operations.
Context {T : Type}.

Definition num_dimensions (m : multi_array T) : nat := length (shape m).

Definition num_elements (m : multi_array T) : nat := extent_product (shape m).

Definition strides (m : multi_array T) : list nat := strides_of (shape m).

(** Offset of the element at [indices] from [origin( )]. *)
Definition offset (m : multi_array T) (indices : list nat) : nat :=
  list_sum (List.map (fun p => fst p * snd p) (combine indices (strides m))).

Definition in_bounds (m : multi_array T) (indices : list nat) : bool :=
  (length indices =? num_dimensions m)
  && forallb (fun p => fst p <? snd p) (combine indices (shape m)).

(** [m( indices )]; an index outside the extents is an error. *)
Definition element (m : multi_array T) (indices : list nat) : result T :=
  if in_bounds m indices then
    match nth_error (data m) (offset m indices) with
    | Some v => Ok v
    | None => Err IndexOutOfRange
    end
  else Err IndexOutOfRange.

(** A value of type [multi_array< T, N >]: [N] extents and as many
    elements as they multiply to. *)
Definition well_formed (N : nat) (m : multi_array T) : Prop :=
  num_dimensions m = N /\ length (data m) = num_elements m.

(** [m.resize( sizes )] on an empty array followed by
    [std::fill( m.data( ), m.data( ) + m.num_elements( ), value )] *)
Definition resized_and_filled (sizes : list nat) (value : T) : multi_array T :=
  mkMultiArray sizes (repeat value (extent_product sizes)).

End Operations.
End boost.

(** ** [input_output]: reading and merging coefficient tables *)

Module input_output.
Import boost.
Local Open Scope result_scope.

(** aerodynamicCoefficientReader.h, lines 24-31.  [requestedElement] is the
    pointer [m.data( ) + requestedElement]; [m.origin( )] is [m.data( )]
    and every index base is 0. *)
Definition getIndex {T : Type} (m : multi_array T) (requestedElement : nat)
           (direction : nat) : nat :=
  let offset := requestedElement - 0 in
  (offset / nth direction (strides m) 0) mod (nth direction (shape m) 0) + 0.

(** aerodynamicCoefficientReader.h, lines 33-70: one overload each for 1, 2
    and 3 dimensions, all of them this loop. *)
Definition getMultiArrayIndexArray {T : Type} (NumberOfDimensions : nat)
           (m : multi_array T) (requestedElement : nat) : list nat :=
  List.map (fun dir => getIndex m requestedElement dir) (seq 0 NumberOfDimensions).

(** aerodynamicCoefficientReader.h, lines 82-131. *)
Definition mergeNDimensionalCoefficients (NumberOfDimensions : nat)
           (xComponents yComponents zComponents : multi_array double)
  : result (multi_array (Vector3 double)) :=
  if existsb
       (fun i =>
          negb (nth i (shape xComponents) 0 =? nth i (shape yComponents) 0)
          || negb (nth i (shape xComponents) 0 =? nth i (shape zComponents) 0))
       (seq 0 NumberOfDimensions)
  then Err InconsistentInputSizes
  else
    let sizeVector := firstn (num_dimensions xComponents) (shape xComponents) in
    let numberOfEntries := num_elements xComponents in
    try! vectorVector :=
      traverse
        (fun p =>
           let index := getMultiArrayIndexArray NumberOfDimensions xComponents p in
           try! xv := element xComponents index in
           try! yv := element yComponents index in
           try! zv := element zComponents index in
           Ok (mkVector3 xv yv zv))
        (seq 0 numberOfEntries) in
    Ok (mkMultiArray sizeVector vectorVector).

Fixpoint compareDoubleVectors (list1 list2 : list double) : bool :=
  match list1, list2 with
  | [], [] => true
  | a :: list1', b :: list2' => PrimFloat.eqb a b && compareDoubleVectors list1' list2'
  | _, _ => false
  end.

(** Modelled from the spec: [compareIndependentVariables] is only declared
    in aerodynamicCoefficientReader.h (lines 133-141); its documentation
    there reads "True of the two lists are completely equal in size and
    contents, false otherwise".  Contents are compared as C++ compares
    doubles, with [==]. *)
Fixpoint compareIndependentVariables (list1 list2 : list (list double)) : bool :=
  match list1, list2 with
  | [], [] => true
  | a :: list1', b :: list2' =>
      compareDoubleVectors a b && compareIndependentVariables list1' list2'
  | _, _ => false
  end.

(** Modelled from the spec: [utilities::copyMultiArray] is defined in
    [Tudat/Basics/utilities.h], outside the embedded files; as named, it
    makes the target a copy of the source (shape and elements). *)
Definition copyMultiArray {T : Type} (source : multi_array T) : multi_array T :=
  source.

Section Reader.
(** [MultiArrayFileReader< N >::readMultiArrayAndIndependentVariables]:
    the file system and the text format, as a function of the file
    name. *)
Variable readMultiArrayAndIndependentVariables :
  nat -> string -> result (multi_array double * list (list double)).

Definition CoefficientArrays : Type :=
  (std_map.t (multi_array double) * list (list double))%type.

(** Body of the loop over [fileNames], lines 181-204. *)
Definition readCoefficientFile (NumberOfDimensions : nat)
           (state : CoefficientArrays) (fileIterator : Z * string)
  : result CoefficientArrays :=
  let rawCoefficientArrays := fst state in
  let independentVariables := snd state in
  try! currentCoefficients :=
    readMultiArrayAndIndependentVariables NumberOfDimensions (snd fileIterator) in
  try! independentVariables' :=
    (if std_map.size rawCoefficientArrays =? 0
     then Ok (snd currentCoefficients)
     else if compareIndependentVariables independentVariables (snd currentCoefficients)
          then Ok independentVariables
          else Err InconsistentIndependentVariables) in
  Ok (std_map.insert (fst fileIterator) (copyMultiArray (fst currentCoefficients))
                     rawCoefficientArrays,
      independentVariables').

Fixpoint readCoefficientFiles (NumberOfDimensions : nat)
         (fileNames : std_map.t string) (state : CoefficientArrays)
  : result CoefficientArrays :=
  match fileNames with
  | [] => Ok state
  | fileIterator :: rest =>
      try! state' := readCoefficientFile NumberOfDimensions state fileIterator in
      readCoefficientFiles NumberOfDimensions rest state'
  end.

(** Body of the loop over the three axes, lines 215-232. *)
Definition coefficientArrayForAxis
           (rawCoefficientArrays : std_map.t (multi_array double))
           (firstMultiArray : multi_array double) (i : Z)
  : result (multi_array double) :=
  if negb (std_map.count i rawCoefficientArrays =? 0)
  then
    try! a := std_map.at_ i rawCoefficientArrays in
    Ok (copyMultiArray a)
  else
    let sizeVector := firstn (num_dimensions firstMultiArray) (shape firstMultiArray) in
    Ok (resized_and_filled sizeVector PrimFloat.zero).

(** aerodynamicCoefficientReader.h, lines 171-239: the overload taking
    the map from axis index to file name. *)
Definition readAerodynamicCoefficients (NumberOfDimensions : nat)
           (fileNames : std_map.t string)
  : result (multi_array (Vector3 double) * list (list double)) :=
  try! state := readCoefficientFiles NumberOfDimensions fileNames ([], []) in
  let rawCoefficientArrays := fst state in
  let independentVariables := snd state in
  if std_map.size rawCoefficientArrays =? 0
  then Err NoFilesRead
  else
    try! firstMultiArray := std_map.begin_second rawCoefficientArrays in
    try! c0 := coefficientArrayForAxis rawCoefficientArrays firstMultiArray 0%Z in
    try! c1 := coefficientArrayForAxis rawCoefficientArrays firstMultiArray 1%Z in
    try! c2 := coefficientArrayForAxis rawCoefficientArrays firstMultiArray 2%Z in
    try! merged := mergeNDimensionalCoefficients NumberOfDimensions c0 c1 c2 in
    Ok (merged, independentVariables).

(* aerodynamicCoefficientReader.h, lines 153-169, the overload taking a
   vector of file names, is not embedded: its call at line 168 names
   readAerodynamicCoefficients< NumberOfDimensions >( fileNameMap ) before
   the overload taking a map is declared (line 171), so the template has no
   instantiation to give a meaning to. *)

End Reader.
End input_output.

(** ** [ephemerides::AerodynamicAngleRotationalEphemeris] *)

Module reference_frames.

(** The enumerators of [AerodynamicsReferenceFrames] that the embedded
    code names. *)
Inductive AerodynamicsReferenceFrames : Type :=
| inertial_frame
| body_frame.

(** What the rotation model asks of its collaborators: the angle
    calculator it holds (a class of [aerodynamicAngleCalculator.h]) and
    Eigen's quaternions. *)
Class Collaborators : Type := {
  AerodynamicAngleCalculator : Type;
  setAerodynamicAngleClosureIsIncomplete :
    AerodynamicAngleCalculator -> AerodynamicAngleCalculator;
  (** [calculator->getRotationMatrixBetweenFrames( original, target )] *)
  getRotationMatrixBetweenFrames :
    AerodynamicAngleCalculator -> AerodynamicsReferenceFrames ->
    AerodynamicsReferenceFrames -> Matrix3 double;
  (** the calculator after it has been brought to a new time with the
      body angles of that time *)
  updateCalculator :
    double -> Vector3 double -> AerodynamicAngleCalculator -> AerodynamicAngleCalculator;
  (** [Eigen::Quaterniond( matrix )] *)
  quaternionFromMatrix : Matrix3 double -> Quaternion double;
  (** [q.inverse( )] *)
  quaternionInverse : Quaternion double -> Quaternion double
}.

End reference_frames.

Module aerodynamic_angle_ephemeris.
Import reference_frames.
Local Open Scope result_scope.

Section Model.
Context {collaborators : Collaborators}.

(** The data members, lines 120-130, with those of the base class
    [RotationalEphemeris].  A null [std::function] is [None].
    [angleFunctionCalls_] is instrumentation: the times at which
    [aerodynamicAngleFunction_] has been invoked, latest first. *)
Record AerodynamicAngleRotationalEphemeris : Type := mkEphemeris {
  baseFrameOrientation_ : string;
  targetFrameOrientation_ : string;
  aerodynamicAngleCalculator_ : AerodynamicAngleCalculator;
  aerodynamicAngleFunction_ : option (double -> Vector3 double);
  currentBodyAngles_ : Vector3 double;
  currentTime_ : double;
  isBodyInPropagation_ : bool;
  angleFunctionCalls_ : list double
}.

(** Constructor, lines 24-38.  [currentBodyAngles_] is not initialised
    there; [indeterminate] stands for what it holds. *)
Definition construct (aerodynamicAngleCalculator : AerodynamicAngleCalculator)
           (baseFrameOrientation targetFrameOrientation : string)
           (aerodynamicAngleFunction : option (double -> Vector3 double))
           (indeterminate : Vector3 double) : AerodynamicAngleRotationalEphemeris :=
  {| baseFrameOrientation_ := baseFrameOrientation;
     targetFrameOrientation_ := targetFrameOrientation;
     aerodynamicAngleCalculator_ :=
       setAerodynamicAngleClosureIsIncomplete aerodynamicAngleCalculator;
     aerodynamicAngleFunction_ := aerodynamicAngleFunction;
     currentBodyAngles_ := indeterminate;
     currentTime_ := TUDAT_NAN;
     isBodyInPropagation_ := false;
     angleFunctionCalls_ := [] |}.

(** Modelled from the spec: [update] is declared at line 73 and defined
    in a source file outside the embedded ones.  The design has it do
    nothing if the time equals the cached one; otherwise it invokes the
    angle function, lets the angle calculator turn the angles into the
    orientation, stores the result and sets the cached time; and a
    query without a registered angle function fails [ClosureNotReady].
    Times are compared as doubles, with [==]. *)
Definition update (currentTime : double) (this : AerodynamicAngleRotationalEphemeris)
  : result AerodynamicAngleRotationalEphemeris :=
  if PrimFloat.eqb currentTime (currentTime_ this) then Ok this
  else
    match aerodynamicAngleFunction_ this with
    | None => Err ClosureNotReady
    | Some aerodynamicAngleFunction =>
        let bodyAngles := aerodynamicAngleFunction currentTime in
        Ok {| baseFrameOrientation_ := baseFrameOrientation_ this;
              targetFrameOrientation_ := targetFrameOrientation_ this;
              aerodynamicAngleCalculator_ :=
                updateCalculator currentTime bodyAngles (aerodynamicAngleCalculator_ this);
              aerodynamicAngleFunction_ := aerodynamicAngleFunction_ this;
              currentBodyAngles_ := bodyAngles;
              currentTime_ := currentTime;
              isBodyInPropagation_ := isBodyInPropagation_ this;
              angleFunctionCalls_ := currentTime :: angleFunctionCalls_ this |}
    end.

(** Modelled from the spec: [resetCurrentTime] is declared at line 75
    and defined outside the embedded files.  The design has it clear the
    cached time; the cleared value is the constructor's [TUDAT_NAN]. *)
Definition resetCurrentTime (this : AerodynamicAngleRotationalEphemeris)
  : AerodynamicAngleRotationalEphemeris :=
  {| baseFrameOrientation_ := baseFrameOrientation_ this;
     targetFrameOrientation_ := targetFrameOrientation_ this;
     aerodynamicAngleCalculator_ := aerodynamicAngleCalculator_ this;
     aerodynamicAngleFunction_ := aerodynamicAngleFunction_ this;
     currentBodyAngles_ := currentBodyAngles_ this;
     currentTime_ := TUDAT_NAN;
     isBodyInPropagation_ := isBodyInPropagation_ this;
     angleFunctionCalls_ := angleFunctionCalls_ this |}.

(** Lines 46-52. *)
Definition getRotationToBaseFrame (currentTime : double)
           (this : AerodynamicAngleRotationalEphemeris)
  : result (Quaternion double * AerodynamicAngleRotationalEphemeris) :=
  try! this' := update currentTime this in
  Ok (quaternionFromMatrix
        (getRotationMatrixBetweenFrames (aerodynamicAngleCalculator_ this')
                                        body_frame inertial_frame),
      this').

(** Lines 54-58. *)
Definition getRotationToTargetFrame (currentTime : double)
           (this : AerodynamicAngleRotationalEphemeris)
  : result (Quaternion double * AerodynamicAngleRotationalEphemeris) :=
  try! r := getRotationToBaseFrame currentTime this in
  Ok (quaternionInverse (fst r), snd r).

(** Lines 60-64.  The object is not touched. *)
Definition getDerivativeOfRotationToBaseFrame (currentTime : double)
           (this : AerodynamicAngleRotationalEphemeris) : result (Matrix3 double) :=
  Ok (Eigen.Constant TUDAT_NAN).

(** Lines 66-71. *)
Definition getDerivativeOfRotationToTargetFrame (currentTime : double)
           (this : AerodynamicAngleRotationalEphemeris) : result (Matrix3 double) :=
  Ok (Eigen.Constant TUDAT_NAN).

(** Lines 77-81. *)
Definition getBodyAngles (currentTime : double)
           (this : AerodynamicAngleRotationalEphemeris)
  : result (Vector3 double * AerodynamicAngleRotationalEphemeris) :=
  try! this' := update currentTime this in
  Ok (currentBodyAngles_ this', this').

Definition withAerodynamicAngleFunction
           (aerodynamicAngleFunction : option (double -> Vector3 double))
           (this : AerodynamicAngleRotationalEphemeris)
  : AerodynamicAngleRotationalEphemeris :=
  {| baseFrameOrientation_ := baseFrameOrientation_ this;
     targetFrameOrientation_ := targetFrameOrientation_ this;
     aerodynamicAngleCalculator_ := aerodynamicAngleCalculator_ this;
     aerodynamicAngleFunction_ := aerodynamicAngleFunction;
     currentBodyAngles_ := currentBodyAngles_ this;
     currentTime_ := currentTime_ this;
     isBodyInPropagation_ := isBodyInPropagation_ this;
     angleFunctionCalls_ := angleFunctionCalls_ this |}.

(** Lines 88-91. *)
Definition setAerodynamicAngleFunction
           (aerodynamicAngleFunction : option (double -> Vector3 double))
           (this : AerodynamicAngleRotationalEphemeris)
  : AerodynamicAngleRotationalEphemeris :=
  withAerodynamicAngleFunction aerodynamicAngleFunction this.

(** Lines 93-111. *)
Definition addSideslipBankAngleFunctions
           (sideslipAndBankAngleFunction : double -> Vector2 double)
           (this : AerodynamicAngleRotationalEphemeris)
  : AerodynamicAngleRotationalEphemeris :=
  match aerodynamicAngleFunction_ this with
  | None =>
      withAerodynamicAngleFunction
        (Some (fun time =>
                 Eigen.comma_scalar_vector2 PrimFloat.zero
                                            (sideslipAndBankAngleFunction time)))
        this
  | Some oldAerodynamicAngleFunction_ =>
      withAerodynamicAngleFunction
        (Some (fun time =>
                 Eigen.comma_scalar_vector2
                   (Eigen.coeff (oldAerodynamicAngleFunction_ time) 0)
                   (sideslipAndBankAngleFunction time)))
        this
  end.

(** Lines 113-116. *)
Definition setIsBodyInPropagation (isBodyInPropagation : bool)
           (this : AerodynamicAngleRotationalEphemeris)
  : AerodynamicAngleRotationalEphemeris :=
  {| baseFrameOrientation_ := baseFrameOrientation_ this;
     targetFrameOrientation_ := targetFrameOrientation_ this;
     aerodynamicAngleCalculator_ := aerodynamicAngleCalculator_ this;
     aerodynamicAngleFunction_ := aerodynamicAngleFunction_ this;
     currentBodyAngles_ := currentBodyAngles_ this;
     currentTime_ := currentTime_ this;
     isBodyInPropagation_ := isBodyInPropagation;
     angleFunctionCalls_ := angleFunctionCalls_ this |}.

End Model.
End aerodynamic_angle_ephemeris.

(** ** [simulation_setup]: the factory of coefficient interfaces *)

Module simulation_setup.
Import boost.
Local Open Scope result_scope.

(** [aerodynamics::AerodynamicCoefficientTypes].  The embedded code names
    two enumerators; [unlisted_coefficient_type] stands for every other
    one, which reaches [default:]. *)
Inductive AerodynamicCoefficientTypes : Type :=
| constant_aerodynamic_coefficients
| tabulated_coefficients
| unlisted_coefficient_type.

(** What the factory asks of its collaborators: the interpolators, the
    coefficient interface's own update, and the readers of coefficient
    files. *)
Class Collaborators : Type := {
  (** [aerodynamics::AerodynamicCoefficientsIndependentVariables] *)
  AerodynamicCoefficientsIndependentVariables : Type;
  InterpolatorSettings : Type;
  (** [interpolators::createOneDimensionalInterpolator( data, settings )],
      as the [interpolate( std::vector< double > )] of the interpolator
      it returns *)
  createOneDimensionalInterpolator :
    list (double * Vector3 double) -> InterpolatorSettings ->
    list double -> Vector3 double;
  (** the [interpolate] of a multi-linear interpolator over an
      [N]-dimensional table *)
  createMultiLinearInterpolator :
    nat -> list (list double) -> multi_array (Vector3 double) ->
    list double -> Vector3 double;
  (** [input_output::getNumberOfIndependentVariablesInCoefficientFile] *)
  getNumberOfIndependentVariablesInCoefficientFile : string -> result Z
}.

Section Factory.
Context {collaborators : Collaborators}.

Definition CoefficientFunction : Type := list double -> Vector3 double.

(** The dynamic type of a settings object and the members its class
    adds to the base class. *)
Inductive SettingsPayload : Type :=
| BaseSettings
    (* an AerodynamicCoefficientSettings of no derived class *)
| ConstantSettings (constantForceCoefficient constantMomentCoefficient : Vector3 double)
    (* ConstantAerodynamicCoefficientSettings *)
| UnivariateTabulatedSettings
    (forceCoefficients momentCoefficients : list (double * Vector3 double))
    (interpolationSettings : InterpolatorSettings)
    (* TabulatedAerodynamicCoefficientSettings< 1 > *)
| TabulatedSettings (NumberOfDimensions : nat)
    (independentVariables : list (list double))
    (forceCoefficients momentCoefficients : multi_array (Vector3 double)).
    (* TabulatedAerodynamicCoefficientSettings< N >, N > 1 *)

Inductive ControlSurfacePayload : Type :=
| BaseControlSurfaceSettings
| TabulatedControlSurfaceSettings (NumberOfDimensions : nat)
    (independentVariables : list (list double))
    (forceCoefficients momentCoefficients : multi_array (Vector3 double)).

Record ControlSurfaceIncrementAerodynamicCoefficientSettings : Type := {
  cs_aerodynamicCoefficientType : AerodynamicCoefficientTypes;
  cs_independentVariableNames : list AerodynamicCoefficientsIndependentVariables;
  cs_payload : ControlSurfacePayload
}.

Record AerodynamicCoefficientSettings : Type := {
  aerodynamicCoefficientType : AerodynamicCoefficientTypes;
  referenceLength : double;
  referenceArea : double;
  lateralReferenceLength : double;
  momentReferencePoint : Vector3 double;
  independentVariableNames : list AerodynamicCoefficientsIndependentVariables;
  areCoefficientsInAerodynamicFrame : bool;
  areCoefficientsInNegativeAxisDirection : bool;
  controlSurfaceSettings :
    list (string * ControlSurfaceIncrementAerodynamicCoefficientSettings);
  payload : SettingsPayload
}.

Record ControlSurfaceIncrementAerodynamicInterface : Type := {
  cs_forceCoefficientFunction : CoefficientFunction;
  cs_momentCoefficientFunction : CoefficientFunction;
  cs_interfaceIndependentVariableNames : list AerodynamicCoefficientsIndependentVariables
}.

(** [aerodynamics::CustomAerodynamicCoefficientInterface]: the arguments
    of its constructor in their order, the control surface increments
    set afterwards, and the current coefficients. *)
Record AerodynamicCoefficientInterface : Type := mkInterface {
  forceCoefficientFunction : CoefficientFunction;
  momentCoefficientFunction : CoefficientFunction;
  interfaceReferenceLength : double;
  interfaceReferenceArea : double;
  interfaceLateralReferenceLength : double;
  interfaceMomentReferencePoint : Vector3 double;
  interfaceIndependentVariableNames : list AerodynamicCoefficientsIndependentVariables;
  interfaceAreCoefficientsInAerodynamicFrame : bool;
  interfaceAreCoefficientsInNegativeAxisDirection : bool;
  controlSurfaceIncrementInterfaces :
    list (string * ControlSurfaceIncrementAerodynamicInterface);
  currentCoefficients : option (Vector3 double * Vector3 double)
}.

(** Modelled from the spec: [updateFullCurrentCoefficients] is a member
    of the interface class, outside the embedded files; it evaluates the
    coefficient functions at the given independent variables and keeps
    the values as the current coefficients. *)
Definition updateFullCurrentCoefficients (independentVariables : list double)
           (interface : AerodynamicCoefficientInterface)
  : AerodynamicCoefficientInterface :=
  {| forceCoefficientFunction := forceCoefficientFunction interface;
     momentCoefficientFunction := momentCoefficientFunction interface;
     interfaceReferenceLength := interfaceReferenceLength interface;
     interfaceReferenceArea := interfaceReferenceArea interface;
     interfaceLateralReferenceLength := interfaceLateralReferenceLength interface;
     interfaceMomentReferencePoint := interfaceMomentReferencePoint interface;
     interfaceIndependentVariableNames := interfaceIndependentVariableNames interface;
     interfaceAreCoefficientsInAerodynamicFrame :=
       interfaceAreCoefficientsInAerodynamicFrame interface;
     interfaceAreCoefficientsInNegativeAxisDirection :=
       interfaceAreCoefficientsInNegativeAxisDirection interface;
     controlSurfaceIncrementInterfaces := controlSurfaceIncrementInterfaces interface;
     currentCoefficients :=
       Some (forceCoefficientFunction interface independentVariables,
             momentCoefficientFunction interface independentVariables) |}.

(** [interface->setControlSurfaceIncrements( increments )] *)
Definition setControlSurfaceIncrements
           (increments : list (string * ControlSurfaceIncrementAerodynamicInterface))
           (interface : AerodynamicCoefficientInterface)
  : AerodynamicCoefficientInterface :=
  {| forceCoefficientFunction := forceCoefficientFunction interface;
     momentCoefficientFunction := momentCoefficientFunction interface;
     interfaceReferenceLength := interfaceReferenceLength interface;
     interfaceReferenceArea := interfaceReferenceArea interface;
     interfaceLateralReferenceLength := interfaceLateralReferenceLength interface;
     interfaceMomentReferencePoint := interfaceMomentReferencePoint interface;
     interfaceIndependentVariableNames := interfaceIndependentVariableNames interface;
     interfaceAreCoefficientsInAerodynamicFrame :=
       interfaceAreCoefficientsInAerodynamicFrame interface;
     interfaceAreCoefficientsInNegativeAxisDirection :=
       interfaceAreCoefficientsInNegativeAxisDirection interface;
     controlSurfaceIncrementInterfaces := increments;
     currentCoefficients := currentCoefficients interface |}.

(** createFlightConditions.cpp, lines 198-220. *)
Definition createConstantCoefficientAerodynamicCoefficientInterface
           (constantForceCoefficient constantMomentCoefficient : Vector3 double)
           (referenceLength referenceArea lateralReferenceLength : double)
           (momentReferencePoint : Vector3 double)
           (areCoefficientsInAerodynamicFrame areCoefficientsInNegativeAxisDirection : bool)
  : AerodynamicCoefficientInterface :=
  let coefficientInterface :=
    mkInterface (fun _ => constantForceCoefficient)
                (fun _ => constantMomentCoefficient)
                referenceLength referenceArea lateralReferenceLength momentReferencePoint
                []
                areCoefficientsInAerodynamicFrame areCoefficientsInNegativeAxisDirection
                [] None in
  updateFullCurrentCoefficients [] coefficientInterface.

(** createFlightConditions.cpp, lines 223-263.  The pointer cast of
    lines 229-231 succeeds on a [TabulatedAerodynamicCoefficientSettings< 1 >]
    only. *)
Definition createUnivariateTabulatedCoefficientAerodynamicCoefficientInterface
           (coefficientSettings : AerodynamicCoefficientSettings) (body : string)
  : result AerodynamicCoefficientInterface :=
  match payload coefficientSettings with
  | UnivariateTabulatedSettings forceCoefficients momentCoefficients
                                interpolationSettings =>
      let forceInterpolator :=
        createOneDimensionalInterpolator forceCoefficients interpolationSettings in
      let momentInterpolator :=
        createOneDimensionalInterpolator forceCoefficients interpolationSettings in
      Ok (mkInterface
            forceInterpolator
            momentInterpolator
            (referenceLength coefficientSettings)
            (referenceArea coefficientSettings)
            (referenceLength coefficientSettings)
            (momentReferencePoint coefficientSettings)
            (independentVariableNames coefficientSettings)
            (areCoefficientsInAerodynamicFrame coefficientSettings)
            (areCoefficientsInNegativeAxisDirection coefficientSettings)
            [] None)
  | _ => Err (SettingsTypeMismatch 1)
  end.

(** Modelled from the spec: the template
    [createTabulatedCoefficientAerodynamicCoefficientInterface< N >] is
    defined in [createFlightConditions.h], outside the embedded files.
    The design has the declared variant checked against the payload
    supplied, a mismatch failing [SettingsTypeMismatch]; on a match the
    interface interpolates the force and the moment table. *)
Definition createTabulatedCoefficientAerodynamicCoefficientInterface
           (NumberOfDimensions : nat)
           (coefficientSettings : AerodynamicCoefficientSettings) (body : string)
  : result AerodynamicCoefficientInterface :=
  match payload coefficientSettings with
  | TabulatedSettings N independentVariables forceCoefficients momentCoefficients =>
      if N =? NumberOfDimensions then
        Ok (mkInterface
              (createMultiLinearInterpolator N independentVariables forceCoefficients)
              (createMultiLinearInterpolator N independentVariables momentCoefficients)
              (referenceLength coefficientSettings)
              (referenceArea coefficientSettings)
              (lateralReferenceLength coefficientSettings)
              (momentReferencePoint coefficientSettings)
              (independentVariableNames coefficientSettings)
              (areCoefficientsInAerodynamicFrame coefficientSettings)
              (areCoefficientsInNegativeAxisDirection coefficientSettings)
              [] None)
      else Err (SettingsTypeMismatch (Z.of_nat NumberOfDimensions))
  | _ => Err (SettingsTypeMismatch (Z.of_nat NumberOfDimensions))
  end.

(** Modelled from the spec: the template
    [createTabulatedControlSurfaceIncrementAerodynamicCoefficientInterface< N >]
    is defined in [createFlightConditions.h]; the same check of the
    payload, then the increment interface over the two tables. *)
Definition createTabulatedControlSurfaceIncrementAerodynamicCoefficientInterface
           (NumberOfDimensions : nat)
           (coefficientSettings : ControlSurfaceIncrementAerodynamicCoefficientSettings)
           (body : string)
  : result ControlSurfaceIncrementAerodynamicInterface :=
  match cs_payload coefficientSettings with
  | TabulatedControlSurfaceSettings N independentVariables
                                    forceCoefficients momentCoefficients =>
      if N =? NumberOfDimensions then
        Ok {| cs_forceCoefficientFunction :=
                createMultiLinearInterpolator N independentVariables forceCoefficients;
              cs_momentCoefficientFunction :=
                createMultiLinearInterpolator N independentVariables momentCoefficients;
              cs_interfaceIndependentVariableNames :=
                cs_independentVariableNames coefficientSettings |}
      else Err (SettingsTypeMismatch (Z.of_nat NumberOfDimensions))
  | _ => Err (SettingsTypeMismatch (Z.of_nat NumberOfDimensions))
  end.

(** createFlightConditions.cpp, lines 265-331. *)
Definition createControlSurfaceIncrementAerodynamicCoefficientInterface
           (coefficientSettings : ControlSurfaceIncrementAerodynamicCoefficientSettings)
           (body : string)
  : result ControlSurfaceIncrementAerodynamicInterface :=
  match cs_aerodynamicCoefficientType coefficientSettings with
  | tabulated_coefficients =>
      let numberOfDimensions :=
        Z.of_nat (length (cs_independentVariableNames coefficientSettings)) in
      match numberOfDimensions with
      | 1%Z => createTabulatedControlSurfaceIncrementAerodynamicCoefficientInterface
                 1 coefficientSettings body
      | 2%Z => createTabulatedControlSurfaceIncrementAerodynamicCoefficientInterface
                 2 coefficientSettings body
      | 3%Z => createTabulatedControlSurfaceIncrementAerodynamicCoefficientInterface
                 3 coefficientSettings body
      | 4%Z => createTabulatedControlSurfaceIncrementAerodynamicCoefficientInterface
                 4 coefficientSettings body
      | 5%Z => createTabulatedControlSurfaceIncrementAerodynamicCoefficientInterface
                 5 coefficientSettings body
      | 6%Z => createTabulatedControlSurfaceIncrementAerodynamicCoefficientInterface
                 6 coefficientSettings body
      | _ => Err (UnsupportedDimensionality numberOfDimensions)
      end
  | _ => Err UnrecognizedControlSurfaceSettings
  end.

(** The first [switch] of [createAerodynamicCoefficientInterface],
    lines 344-422. *)
Definition createBaselineCoefficientInterface
           (coefficientSettings : AerodynamicCoefficientSettings) (body : string)
  : result AerodynamicCoefficientInterface :=
  match aerodynamicCoefficientType coefficientSettings with
  | constant_aerodynamic_coefficients =>
      match payload coefficientSettings with
      | ConstantSettings constantForceCoefficient constantMomentCoefficient =>
          Ok (createConstantCoefficientAerodynamicCoefficientInterface
                constantForceCoefficient
                constantMomentCoefficient
                (referenceLength coefficientSettings)
                (referenceArea coefficientSettings)
                (referenceLength coefficientSettings)
                (momentReferencePoint coefficientSettings)
                (areCoefficientsInAerodynamicFrame coefficientSettings)
                (areCoefficientsInNegativeAxisDirection coefficientSettings))
      | _ => Err ConstantSettingsTypeMismatch
      end
  | tabulated_coefficients =>
      let numberOfDimensions :=
        Z.of_nat (length (independentVariableNames coefficientSettings)) in
      match numberOfDimensions with
      | 1%Z => createUnivariateTabulatedCoefficientAerodynamicCoefficientInterface
                 coefficientSettings body
      | 2%Z => createTabulatedCoefficientAerodynamicCoefficientInterface
                 2 coefficientSettings body
      | 3%Z => createTabulatedCoefficientAerodynamicCoefficientInterface
                 3 coefficientSettings body
      | 4%Z => createTabulatedCoefficientAerodynamicCoefficientInterface
                 4 coefficientSettings body
      | 5%Z => createTabulatedCoefficientAerodynamicCoefficientInterface
                 5 coefficientSettings body
      | 6%Z => createTabulatedCoefficientAerodynamicCoefficientInterface
                 6 coefficientSettings body
      | _ => Err (UnsupportedDimensionality numberOfDimensions)
      end
  | unlisted_coefficient_type => Err UnrecognizedSettings
  end.

(** createFlightConditions.cpp, lines 334-443. *)
Definition createAerodynamicCoefficientInterface
           (coefficientSettings : AerodynamicCoefficientSettings) (body : string)
  : result AerodynamicCoefficientInterface :=
  try! coefficientInterface :=
    createBaselineCoefficientInterface coefficientSettings body in
  if negb (length (controlSurfaceSettings coefficientSettings) =? 0)
  then
    try! controlSurfaceIncrementInterfaces :=
      traverse
        (fun settingIterator =>
           try! increment :=
             createControlSurfaceIncrementAerodynamicCoefficientInterface
               (snd settingIterator) body in
           Ok (fst settingIterator, increment))
        (controlSurfaceSettings coefficientSettings) in
    Ok (setControlSurfaceIncrements controlSurfaceIncrementInterfaces
                                    coefficientInterface)
  else Ok coefficientInterface.

(** Whether the pointer cast to
    [TabulatedAerodynamicCoefficientSettings< N >] succeeds. *)
Definition isTabulatedOfDimension (N : nat) (p : SettingsPayload) : bool :=
  match p with
  | UnivariateTabulatedSettings _ _ _ => N =? 1
  | TabulatedSettings M _ _ _ => (M =? N) && negb (N =? 1)
  | _ => false
  end.

Section FromFiles.
(** The template [readGivenSizeTabulatedAerodynamicCoefficientsFromFiles< N >]
    of [createFlightConditions.h], applied to the remaining arguments
    of the caller. *)
Variable readGivenSizeTabulatedAerodynamicCoefficientsFromFiles :
  nat -> std_map.t string -> std_map.t string ->
  result AerodynamicCoefficientSettings.

(** createFlightConditions.cpp, lines 108-153. *)
Definition readTabulatedAerodynamicCoefficientsFromFiles
           (forceCoefficientFiles momentCoefficientFiles : std_map.t string)
  : result AerodynamicCoefficientSettings :=
  try! firstFile := std_map.at_ 0%Z forceCoefficientFiles in
  try! numberOfIndependentVariables :=
    getNumberOfIndependentVariablesInCoefficientFile firstFile in
  if (numberOfIndependentVariables =? 1)%Z then
    readGivenSizeTabulatedAerodynamicCoefficientsFromFiles
      1 forceCoefficientFiles momentCoefficientFiles
  else if (numberOfIndependentVariables =? 2)%Z then
    readGivenSizeTabulatedAerodynamicCoefficientsFromFiles
      2 forceCoefficientFiles momentCoefficientFiles
  else if (numberOfIndependentVariables =? 3)%Z then
    readGivenSizeTabulatedAerodynamicCoefficientsFromFiles
      3 forceCoefficientFiles momentCoefficientFiles
  else Err (UnsupportedFileDimensionality numberOfIndependentVariables).

End FromFiles.

End Factory.
End simulation_setup.

(** * Vocabulary of the properties, and example data *)

Module FrameKinematicsSpec.
Import ephemerides.
Local Open Scope R_scope.

Definition identity : Matrix3 R := mkMatrix3 1 0 0 0 1 0 0 0 1.

Definition determinant (M : Matrix3 R) : R :=
  m00 M * (m11 M * m22 M - m12 M * m21 M)
  - m01 M * (m10 M * m22 M - m12 M * m20 M)
  + m02 M * (m10 M * m21 M - m11 M * m20 M).

(** An orthonormal rotation matrix: [R * R^T = 1] and [det R = 1]. *)
Definition isRotationMatrix (M : Matrix3 R) : Prop :=
  Eigen.mul M (Eigen.transpose M) = identity /\ determinant M = 1.

Definition scale (c : R) (v : Vector3 R) : Vector3 R :=
  mkVector3 (c * vx v) (c * vy v) (c * vz v).

(** Unfold the kinematic functions down to real arithmetic, and no
    further. *)
Ltac to_real_arithmetic :=
  cbv [getRotationalVelocityVectorInBaseFrameFromMatrices
       getDerivativeOfRotationMatrixToFrame
       linear_algebra.getCrossProductMatrix
       Eigen.mul Eigen.mulv Eigen.mopp Eigen.transpose Eigen.dot3
       m00 m01 m02 m10 m11 m12 m20 m21 m22 vx vy vz
       szero sadd smul sopp Scalar_real
       identity determinant scale].

(** A quarter turn about the third axis. *)
Definition quarterTurn : Matrix3 R := mkMatrix3 0 (-1) 0 1 0 0 0 0 1.

End FrameKinematicsSpec.

Module MultiArraySpec.
Import boost input_output.

(** The index array of the element at offset [p], written without the
    array: digit [d] of [p] in the mixed radix given by the extents. *)
Definition digits (extents : list nat) (p : nat) : list nat :=
  List.map (fun d => (p / nth d (strides_of extents) 0) mod nth d extents 0)
           (seq 0 (length extents)).

Definition weighted_sum (indices weights : list nat) : nat :=
  list_sum (List.map (fun q => fst q * snd q) (combine indices weights)).

Definition below (indices extents : list nat) : bool :=
  forallb (fun q => fst q <? snd q) (combine indices extents).

(** The size check of the merge passes exactly on equal shapes. *)
Definition sizes_differ (N : nat) (sx sy sz : list nat) : bool :=
  existsb (fun i => negb (nth i sx 0 =? nth i sy 0) || negb (nth i sx 0 =? nth i sz 0))
          (seq 0 N).

(** The merged table, element by element in storage order. *)
Definition merged_data (dx dy dz : list double) (n : nat) : list (Vector3 double) :=
  List.map (fun p => mkVector3 (nth p dx TUDAT_NAN) (nth p dy TUDAT_NAN) (nth p dz TUDAT_NAN))
           (seq 0 n).

Definition exampleX : multi_array double :=
  mkMultiArray [2; 3] [1; 2; 3; 4; 5; 6]%float.
Definition exampleY : multi_array double :=
  mkMultiArray [2; 3] [10; 20; 30; 40; 50; 60]%float.
Definition exampleZ : multi_array double :=
  mkMultiArray [2; 3] [100; 200; 300; 400; 500; 600]%float.

End MultiArraySpec.

Module ReaderSpec.
Import boost input_output.

Section Reading.
Variable readFile : nat -> string -> result (multi_array double * list (list double)).
Variable N : nat.

(** Every file of the map can be read. *)
Definition readable (fileNames : std_map.t string) : Prop :=
  forall k f, In (k, f) fileNames -> exists a iv, readFile N f = Ok (a, iv).

(** What the reader's tables look like: [N] extents, one per breakpoint
    list, each the length of its list. *)
Definition reader_well_formed : Prop :=
  forall f a iv, readFile N f = Ok (a, iv) ->
                 well_formed N a /\ shape a = List.map (@length double) iv.

(** Every file of the map can be read and its breakpoints compare equal
    to [iv0]. *)
Definition consistent_with (iv0 : list (list double)) (fileNames : std_map.t string)
  : Prop :=
  forall k f, In (k, f) fileNames ->
              exists a iv, readFile N f = Ok (a, iv) /\
                           compareIndependentVariables iv0 iv = true.

Definition tables_of_shape (extents : list nat) (raw : std_map.t (multi_array double))
  : Prop :=
  forall k a, std_map.find k raw = Some a -> well_formed N a /\ shape a = extents.

End Reading.
End ReaderSpec.

Module ReaderData.
Import boost input_output MultiArraySpec.
Local Open Scope string_scope.

Definition breakpointsA : list (list double) := [[1; 2]; [1; 2; 3]]%float.
Definition breakpointsB : list (list double) := [[1; 2]; [1; 2; 4]]%float.

(** A file system with three coefficient files; the third was
    tabulated over other breakpoints. *)
Definition exampleReader (N : nat) (fileName : string)
  : result (multi_array double * list (list double)) :=
  if String.eqb fileName "Cx.dat" then Ok (exampleX, breakpointsA)
  else if String.eqb fileName "Cy.dat" then Ok (exampleY, breakpointsA)
  else if String.eqb fileName "Cz.dat" then Ok (exampleZ, breakpointsB)
  else Err (FileNotReadable fileName).

End ReaderData.

Module EphemerisData.
Import reference_frames aerodynamic_angle_ephemeris.
Local Open Scope float_scope.

(** A small stand-in for the collaborators, to run the model: the
    calculator is the matrix it would return, brought to new angles by
    writing them on the diagonal. *)
Definition exampleCollaborators : Collaborators := {|
  AerodynamicAngleCalculator := Matrix3 double;
  setAerodynamicAngleClosureIsIncomplete := fun calculator => calculator;
  getRotationMatrixBetweenFrames := fun calculator _ _ => calculator;
  updateCalculator := fun _ angles _ =>
    mkMatrix3 (vx angles) 0 0 0 (vy angles) 0 0 0 (vz angles);
  quaternionFromMatrix := fun m => mkQuaternion (m00 m) (m11 m) (m22 m) 0;
  quaternionInverse := fun q => mkQuaternion (qw q) (- qx q) (- qy q) (- qz q)
|}.

Definition exampleAngles (time : double) : Vector3 double :=
  mkVector3 (time * 2) 0 (time + 1).

(** An ephemeris as constructed, with an angle function. *)
Definition exampleEphemeris : @AerodynamicAngleRotationalEphemeris exampleCollaborators :=
  @construct exampleCollaborators (Eigen.Constant 0) "ECLIPJ2000" "VehicleFixed"
             (Some exampleAngles) (mkVector3 0 0 0).

(** The same without one. *)
Definition incompleteEphemeris : @AerodynamicAngleRotationalEphemeris exampleCollaborators :=
  @construct exampleCollaborators (Eigen.Constant 0) "ECLIPJ2000" "VehicleFixed"
             None (mkVector3 0 0 0).

End EphemerisData.

Module FactorySpec.
Import boost simulation_setup.

Section Spec.
Context {collaborators : Collaborators}.

Definition controlSurfacesBuild (coefficientSettings : AerodynamicCoefficientSettings)
           (body : string) : Prop :=
  Forall (fun entry =>
            is_ok (createControlSurfaceIncrementAerodynamicCoefficientInterface
                     (snd entry) body) = true)
         (controlSurfaceSettings coefficientSettings).

End Spec.
End FactorySpec.

Module FactoryData.
Import boost simulation_setup.
Local Open Scope float_scope.
Local Open Scope string_scope.

Definition noValue : Vector3 double := mkVector3 TUDAT_NAN TUDAT_NAN TUDAT_NAN.

(** Value of a one-dimensional table at a breakpoint. *)
Fixpoint valueAtBreakpoint (table : list (double * Vector3 double)) (breakpoint : double)
  : Vector3 double :=
  match table with
  | [] => noValue
  | (b, v) :: table' =>
      if PrimFloat.eqb b breakpoint then v else valueAtBreakpoint table' breakpoint
  end.

(** A small stand-in for the collaborators, to run the factory:
    interpolators that look a breakpoint up, and a file system in which
    one coefficient file has four independent variables. *)
Definition exampleCollaborators : Collaborators := {|
  AerodynamicCoefficientsIndependentVariables := nat;
  InterpolatorSettings := unit;
  createOneDimensionalInterpolator := fun table _ independentVariables =>
    valueAtBreakpoint table (hd TUDAT_NAN independentVariables);
  createMultiLinearInterpolator := fun _ _ table _ => hd noValue (data table);
  getNumberOfIndependentVariablesInCoefficientFile := fun fileName =>
    if String.eqb fileName "fourVariables.dat" then Ok 4%Z else Ok 1%Z
|}.

#[export] Existing Instance exampleCollaborators.

Definition forceTable : list (double * Vector3 double) :=
  [(0, mkVector3 1 0 0); (1, mkVector3 2 0 0)].
Definition momentTable : list (double * Vector3 double) :=
  [(0, mkVector3 0 0 7); (1, mkVector3 0 0 9)].

Definition settingsWith (names : list nat)
           (surfaces : list (string * @ControlSurfaceIncrementAerodynamicCoefficientSettings
                                        exampleCollaborators))
           (p : @SettingsPayload exampleCollaborators)
  : @AerodynamicCoefficientSettings exampleCollaborators :=
  {| aerodynamicCoefficientType := tabulated_coefficients;
     referenceLength := 2;
     referenceArea := 3;
     lateralReferenceLength := 4;
     momentReferencePoint := mkVector3 0 0 0;
     independentVariableNames := names;
     areCoefficientsInAerodynamicFrame := true;
     areCoefficientsInNegativeAxisDirection := true;
     controlSurfaceSettings := surfaces;
     payload := p |}.

(** One independent variable, the univariate tabulated settings. *)
Definition univariateSettings : @AerodynamicCoefficientSettings exampleCollaborators :=
  settingsWith [0%nat] [] (UnivariateTabulatedSettings forceTable momentTable tt).

Definition exampleTable : multi_array (Vector3 double) :=
  mkMultiArray [1; 1]%nat [mkVector3 1 2 3].

(** Two independent variables, the tabulated settings of dimension 2. *)
Definition bivariateSettings : @AerodynamicCoefficientSettings exampleCollaborators :=
  settingsWith [0%nat; 1%nat] [] (TabulatedSettings 2 [[0]; [0]] exampleTable exampleTable).

(** Tagged as tabulated with one independent variable, and of the base
    class only. *)
Definition untypedSettings : @AerodynamicCoefficientSettings exampleCollaborators :=
  settingsWith [0%nat] [] BaseSettings.

(** Seven independent variables. *)
Definition sevenVariableSettings : @AerodynamicCoefficientSettings exampleCollaborators :=
  settingsWith [0; 1; 2; 3; 4; 5; 6]%nat []
               (TabulatedSettings 7 [] exampleTable exampleTable).

(** The univariate settings with a control surface whose descriptor is
    not tagged as tabulated. *)
Definition settingsWithOddSurface : @AerodynamicCoefficientSettings exampleCollaborators :=
  settingsWith [0%nat]
               [("elevator",
                 {| cs_aerodynamicCoefficientType := constant_aerodynamic_coefficients;
                    cs_independentVariableNames := [0%nat];
                    cs_payload := BaseControlSurfaceSettings |})]
               (UnivariateTabulatedSettings forceTable momentTable tt).

End FactoryData.

Module FrameKinematicsAlgebra.
Import ephemerides FrameKinematicsSpec.
Local Open Scope R_scope.

Definition scaleMatrix (c : R) (M : Matrix3 R) : Matrix3 R :=
  mkMatrix3 (c * m00 M) (c * m01 M) (c * m02 M)
            (c * m10 M) (c * m11 M) (c * m12 M)
            (c * m20 M) (c * m21 M) (c * m22 M).

Definition addMatrix (M K : Matrix3 R) : Matrix3 R :=
  mkMatrix3 (m00 M + m00 K) (m01 M + m01 K) (m02 M + m02 K)
            (m10 M + m10 K) (m11 M + m11 K) (m12 M + m12 K)
            (m20 M + m20 K) (m21 M + m21 K) (m22 M + m22 K).

Definition addVector (u v : Vector3 R) : Vector3 R :=
  mkVector3 (vx u + vx v) (vy u + vy v) (vz u + vz v).

Ltac to_real_matrices :=
  cbv [scaleMatrix addMatrix addVector quarterTurn]; to_real_arithmetic.

End FrameKinematicsAlgebra.

Module ReaderTables.
Import boost input_output.

(** No key twice: what every [std::map] satisfies. *)
Definition distinct_keys {V : Type} (m : std_map.t V) : Prop :=
  NoDup (List.map fst m).

Section Reading.
Variable readFile : nat -> string -> result (multi_array double * list (list double)).
Variable N : nat.

(** The table read from the file that the map gives for a key. *)
Definition table_of (fileNames : std_map.t string) (key : Z)
  : option (multi_array double) :=
  match std_map.find key fileNames with
  | Some f =>
      match readFile N f with
      | Ok currentCoefficients => Some (fst currentCoefficients)
      | Err _ => None
      end
  | None => None
  end.

(** The elements that an axis contributes to a merge of [n] elements:
    those of its table, or zeros when the map has no entry for it. *)
Definition axis_elements (fileNames : std_map.t string) (n : nat) (key : Z)
  : list double :=
  match table_of fileNames key with
  | Some a => data a
  | None => repeat PrimFloat.zero n
  end.

(** The files of a map are all readable, the breakpoints of the later
    ones comparing equal to those of the first. *)
Definition reads_consistently (fileNames : std_map.t string) : Prop :=
  match fileNames with
  | [] => True
  | (_, f0) :: rest =>
      exists a0 iv0,
        readFile N f0 = Ok (a0, iv0) /\ ReaderSpec.consistent_with readFile N iv0 rest
  end.

End Reading.
End ReaderTables.

Module FactoryBuildData.
Import boost simulation_setup FactoryData.
Local Open Scope float_scope.
Local Open Scope string_scope.

(** A constant descriptor that declares an independent variable all the
    same. *)
Definition constantSettings : @AerodynamicCoefficientSettings exampleCollaborators :=
  {| aerodynamicCoefficientType := constant_aerodynamic_coefficients;
     referenceLength := 2;
     referenceArea := 3;
     lateralReferenceLength := 4;
     momentReferencePoint := mkVector3 0 0 0;
     independentVariableNames := [0%nat];
     areCoefficientsInAerodynamicFrame := true;
     areCoefficientsInNegativeAxisDirection := true;
     controlSurfaceSettings := [];
     payload := ConstantSettings (mkVector3 1 2 3) (mkVector3 4 5 6) |}.

(** A control surface tabulated over two independent variables. *)
Definition aileronSettings
  : @ControlSurfaceIncrementAerodynamicCoefficientSettings exampleCollaborators :=
  {| cs_aerodynamicCoefficientType := tabulated_coefficients;
     cs_independentVariableNames := [0%nat; 1%nat];
     cs_payload := TabulatedControlSurfaceSettings 2 [[0]; [0]] exampleTable exampleTable |}.

(** A control surface descriptor that is not tagged as tabulated. *)
Definition elevatorSettings
  : @ControlSurfaceIncrementAerodynamicCoefficientSettings exampleCollaborators :=
  {| cs_aerodynamicCoefficientType := constant_aerodynamic_coefficients;
     cs_independentVariableNames := [0%nat];
     cs_payload := BaseControlSurfaceSettings |}.

(** A control surface descriptor with seven independent variables. *)
Definition flapSettings
  : @ControlSurfaceIncrementAerodynamicCoefficientSettings exampleCollaborators :=
  {| cs_aerodynamicCoefficientType := tabulated_coefficients;
     cs_independentVariableNames := [0; 1; 2; 3; 4; 5; 6]%nat;
     cs_payload := BaseControlSurfaceSettings |}.

Definition settingsWithAileron : @AerodynamicCoefficientSettings exampleCollaborators :=
  settingsWith [0%nat] [("aileron", aileronSettings)]
               (UnivariateTabulatedSettings forceTable momentTable tt).

Definition settingsWithAileronAndElevator
  : @AerodynamicCoefficientSettings exampleCollaborators :=
  settingsWith [0%nat] [("aileron", aileronSettings); ("elevator", elevatorSettings)]
               (UnivariateTabulatedSettings forceTable momentTable tt).

(** The interface of [univariateSettings], written out. *)
Definition univariateInterface : @AerodynamicCoefficientInterface exampleCollaborators :=
  mkInterface (createOneDimensionalInterpolator forceTable tt)
              (createOneDimensionalInterpolator forceTable tt)
              2 3 2 (mkVector3 0 0 0) [0%nat] true true [] None.

Definition aileronInterface
  : @ControlSurfaceIncrementAerodynamicInterface exampleCollaborators :=
  {| cs_forceCoefficientFunction := createMultiLinearInterpolator 2 [[0]; [0]] exampleTable;
     cs_momentCoefficientFunction := createMultiLinearInterpolator 2 [[0]; [0]] exampleTable;
     cs_interfaceIndependentVariableNames := [0%nat; 1%nat] |}.

(** The interface of [settingsWithAileron], written out. *)
Definition interfaceWithAileron : @AerodynamicCoefficientInterface exampleCollaborators :=
  setControlSurfaceIncrements [("aileron", aileronInterface)] univariateInterface.

End FactoryBuildData.

(** * Properties *)

Module FrameKinematicsFacts.
Import ephemerides FrameKinematicsSpec.
Local Open Scope R_scope.

Lemma vector3_eq (a b : Vector3 R) :
  vx a = vx b -> vy a = vy b -> vz a = vz b -> a = b.
Proof. destruct a, b; simpl; intros; subst; reflexivity. Qed.

(** The triple-product identity behind the conversion: for any matrix
    [M], [M^T * skew(M w) * M = det M * skew(w)]; read off at the three
    entries the code extracts. *)
Lemma velocity_of_transposed_derivative (M : Matrix3 R) (w : Vector3 R) :
  getRotationalVelocityVectorInBaseFrameFromMatrices
    M (Eigen.transpose (getDerivativeOfRotationMatrixToFrame M w))
  = scale (determinant M) w.
Proof.
  destruct M, w. apply vector3_eq; to_real_arithmetic; ring.
Qed.

(** C1 (as amended).  For every orthonormal rotation matrix [M] and every
    angular velocity [w]: take the derivative
    [getDerivativeOfRotationMatrixToFrame M w], hand its transpose (the
    derivative of the inverse rotation, which is what the parameter
    [rotationMatrixToGlobalFrameDerivative] stands for) together with [M]
    to [getRotationalVelocityVectorInBaseFrameFromMatrices]; the result
    is [w] again, and taking the derivative once more reproduces the
    first derivative exactly. *)
Theorem derivative_round_trip (M : Matrix3 R) (w : Vector3 R) :
  isRotationMatrix M ->
  let derivative := getDerivativeOfRotationMatrixToFrame M w in
  let velocity :=
    getRotationalVelocityVectorInBaseFrameFromMatrices M (Eigen.transpose derivative) in
  velocity = w /\ getDerivativeOfRotationMatrixToFrame M velocity = derivative.
Proof.
  intros [_ Hdet]; cbv zeta.
  assert (Hw : getRotationalVelocityVectorInBaseFrameFromMatrices
                 M (Eigen.transpose (getDerivativeOfRotationMatrixToFrame M w)) = w).
  { rewrite velocity_of_transposed_derivative, Hdet.
    destruct w; to_real_arithmetic. f_equal; ring. }
  split; [exact Hw | now rewrite Hw].
Qed.

Lemma quarterTurn_isRotationMatrix : isRotationMatrix quarterTurn.
Proof.
  split.
  - unfold quarterTurn; to_real_arithmetic. f_equal; ring.
  - unfold quarterTurn; to_real_arithmetic. ring.
Qed.

Lemma derivative_round_trip_witness :
  let w := mkVector3 1 2 3 in
  let derivative := getDerivativeOfRotationMatrixToFrame quarterTurn w in
  let velocity :=
    getRotationalVelocityVectorInBaseFrameFromMatrices
      quarterTurn (Eigen.transpose derivative) in
  velocity = w /\ getDerivativeOfRotationMatrixToFrame quarterTurn velocity = derivative.
Proof.
  exact (derivative_round_trip (mkVector3 1 2 3) quarterTurn_isRotationMatrix).
Defined.

Lemma identity_isRotationMatrix : isRotationMatrix identity.
Proof.
  split.
  - to_real_arithmetic. f_equal; ring.
  - to_real_arithmetic. ring.
Qed.

(** Handing the derivative over as it is, without the transpose, does not
    close the round trip: at the identity rotation and [w = (1, 0, 0)] the
    velocity comes back as [-w] and the second derivative is the negative
    of the first. *)
Lemma derivative_round_trip_untransposed_fails :
  isRotationMatrix identity /\
  getDerivativeOfRotationMatrixToFrame
    identity
    (getRotationalVelocityVectorInBaseFrameFromMatrices
       identity (getDerivativeOfRotationMatrixToFrame identity (mkVector3 1 0 0)))
  <> getDerivativeOfRotationMatrixToFrame identity (mkVector3 1 0 0).
Proof.
  split; [exact identity_isRotationMatrix|].
  intros Heq. apply (f_equal (@m21 R)) in Heq.
  revert Heq. to_real_arithmetic. lra.
Qed.

(** Without the transpose the velocity that comes back at the identity
    rotation is the negative of the one put in. *)
Lemma velocity_of_untransposed_derivative_at_identity (w : Vector3 R) :
  getRotationalVelocityVectorInBaseFrameFromMatrices
    identity (getDerivativeOfRotationMatrixToFrame identity w)
  = scale (-1) w.
Proof.
  destruct w. apply vector3_eq; to_real_arithmetic; ring.
Qed.

End FrameKinematicsFacts.

Module MultiArrayFacts.
Import boost input_output MultiArraySpec.

Lemma weighted_sum_cons (i w : nat) (indices weights : list nat) :
  weighted_sum (i :: indices) (w :: weights) = i * w + weighted_sum indices weights.
Proof. reflexivity. Qed.

Lemma below_cons (i n : nat) (indices extents : list nat) :
  below (i :: indices) (n :: extents) = (i <? n) && below indices extents.
Proof. reflexivity. Qed.

Lemma extent_product_cons (n : nat) (extents : list nat) :
  extent_product (n :: extents) = n * extent_product extents.
Proof. reflexivity. Qed.

Lemma getMultiArrayIndexArray_digits {T : Type} (m : multi_array T) (p : nat) :
  getMultiArrayIndexArray (num_dimensions m) m p = digits (shape m) p.
Proof.
  unfold getMultiArrayIndexArray, digits, getIndex, num_dimensions, strides.
  apply map_ext; intros d.
  now rewrite Nat.sub_0_r, Nat.add_0_r.
Qed.

Lemma digits_cons (n : nat) (extents : list nat) (p : nat) :
  digits (n :: extents) p = (p / extent_product extents) mod n :: digits extents p.
Proof.
  unfold digits; cbn [length seq List.map strides_of nth].
  f_equal.
  rewrite <- seq_shift, map_map.
  apply map_ext; intros d; reflexivity.
Qed.

Lemma digits_length (extents : list nat) (p : nat) :
  length (digits extents p) = length extents.
Proof. unfold digits; now rewrite length_map, length_seq. Qed.

(** Reading the digits back with the strides gives the offset again. *)
Lemma weighted_sum_digits (extents : list nat) (p : nat) :
  weighted_sum (digits extents p) (strides_of extents) = p mod extent_product extents.
Proof.
  induction extents as [|n extents IH].
  - change (0 = p mod 1). now rewrite Nat.mod_1_r.
  - rewrite digits_cons. cbn [strides_of].
    rewrite weighted_sum_cons, IH, extent_product_cons.
    rewrite (Nat.mul_comm n), Nat.Div0.mod_mul_r. lia.
Qed.

Lemma digits_below (extents : list nat) (p : nat) :
  extent_product extents <> 0 -> below (digits extents p) extents = true.
Proof.
  induction extents as [|n extents IH]; intros Hpos.
  - reflexivity.
  - rewrite digits_cons, below_cons.
    rewrite extent_product_cons in Hpos.
    apply andb_true_intro; split.
    + apply Nat.ltb_lt, Nat.mod_upper_bound. lia.
    + apply IH. lia.
Qed.

(** An index array within the extents addresses an element of the array. *)
Lemma weighted_sum_below (extents indices : list nat) :
  length indices = length extents ->
  below indices extents = true ->
  weighted_sum indices (strides_of extents) < extent_product extents.
Proof.
  revert indices; induction extents as [|n extents IH]; intros [|i indices] Hlen Hb;
    try discriminate.
  - cbn. lia.
  - cbn [strides_of].
    rewrite weighted_sum_cons, extent_product_cons. rewrite below_cons in Hb.
    apply andb_prop in Hb as [Hi Hb]. apply Nat.ltb_lt in Hi.
    injection Hlen as Hlen.
    specialize (IH indices Hlen Hb). nia.
Qed.

Lemma in_bounds_spec {T : Type} (m : multi_array T) (indices : list nat) :
  in_bounds m indices = true <->
  length indices = length (shape m) /\ below indices (shape m) = true.
Proof.
  unfold in_bounds, num_dimensions, below.
  rewrite andb_true_iff, Nat.eqb_eq. reflexivity.
Qed.

(** Element access by index array is element access by offset. *)
Lemma element_at_offset {T : Type} (N : nat) (m : multi_array T) (indices : list nat)
      (default : T) :
  well_formed N m ->
  in_bounds m indices = true ->
  offset m indices < num_elements m /\
  element m indices = Ok (nth (offset m indices) (data m) default).
Proof.
  intros [_ Hdata] Hin.
  pose proof Hin as Hin'. apply in_bounds_spec in Hin' as [Hlen Hb].
  assert (Hlt : offset m indices < num_elements m)
    by (apply weighted_sum_below; assumption).
  split; [exact Hlt|].
  unfold element. rewrite Hin.
  rewrite (nth_error_nth' (data m) default) by (rewrite Hdata; exact Hlt).
  reflexivity.
Qed.

Lemma element_digits {T : Type} (N : nat) (m : multi_array T) (extents : list nat)
      (p : nat) (default : T) :
  well_formed N m ->
  shape m = extents ->
  p < extent_product extents ->
  element m (digits extents p) = Ok (nth p (data m) default).
Proof.
  intros Hwf Hshape Hp. subst extents.
  assert (Hin : in_bounds m (digits (shape m) p) = true).
  { apply in_bounds_spec; split; [apply digits_length|].
    apply digits_below. lia. }
  destruct (@element_at_offset _ N m _ default Hwf Hin) as [_ ->].
  unfold offset, strides. fold (weighted_sum (digits (shape m) p) (strides_of (shape m))).
  rewrite weighted_sum_digits, Nat.mod_small by exact Hp.
  reflexivity.
Qed.

Lemma traverse_map {A B : Type} (f : A -> result B) (g : A -> B) (l : list A) :
  (forall a, In a l -> f a = Ok (g a)) ->
  traverse f l = Ok (List.map g l).
Proof.
  induction l as [|a l IH]; intros Hf; cbn; [reflexivity|].
  rewrite (Hf a (or_introl eq_refl)), IH; [reflexivity|].
  intros b Hb; apply Hf; now right.
Qed.

Lemma sizes_differ_false (N : nat) (sx sy sz : list nat) :
  length sx = N -> length sy = N -> length sz = N ->
  sizes_differ N sx sy sz = false <-> sx = sy /\ sx = sz.
Proof.
  intros Hx Hy Hz. unfold sizes_differ. split.
  - intros Hex.
    assert (Hall : forall i, i < N -> nth i sx 0 = nth i sy 0 /\ nth i sx 0 = nth i sz 0).
    { intros i Hi.
      destruct (negb (nth i sx 0 =? nth i sy 0) || negb (nth i sx 0 =? nth i sz 0))
        eqn:Hbody.
      - exfalso.
        rewrite (proj2 (existsb_exists _ _)) in Hex; [discriminate|].
        exists i; split; [apply in_seq; lia | exact Hbody].
      - apply orb_false_elim in Hbody as [Hy' Hz'].
        apply negb_false_iff, Nat.eqb_eq in Hy', Hz'. now split. }
    split; apply (nth_ext _ _ 0 0); try congruence;
      intros i Hi; apply Hall; lia.
  - intros [<- <-].
    apply not_true_is_false; intros Hex.
    apply existsb_exists in Hex as (i & _ & Hi).
    rewrite Nat.eqb_refl in Hi. discriminate.
Qed.

Lemma merge_equal_shapes (N : nat) (xs ys zs : multi_array double) :
  well_formed N xs -> well_formed N ys -> well_formed N zs ->
  shape xs = shape ys -> shape xs = shape zs ->
  mergeNDimensionalCoefficients N xs ys zs
  = Ok (mkMultiArray (shape xs)
                     (merged_data (data xs) (data ys) (data zs) (num_elements xs))).
Proof.
  intros Hx Hy Hz Exy Exz.
  unfold mergeNDimensionalCoefficients.
  fold (sizes_differ N (shape xs) (shape ys) (shape zs)).
  assert (Hsd : sizes_differ N (shape xs) (shape ys) (shape zs) = false).
  { apply sizes_differ_false; try (apply Hx || apply Hy || apply Hz). now split. }
  rewrite Hsd.
  unfold num_dimensions; rewrite firstn_all.
  rewrite (@traverse_map _ _ _
             (fun p => mkVector3 (nth p (data xs) TUDAT_NAN) (nth p (data ys) TUDAT_NAN)
                                 (nth p (data zs) TUDAT_NAN))).
  - reflexivity.
  - intros p Hp. apply in_seq in Hp. unfold num_elements in Hp.
    assert (HN : N = num_dimensions xs) by (symmetry; apply Hx).
    cbv zeta. rewrite HN, getMultiArrayIndexArray_digits.
    rewrite (@element_digits _ N xs (shape xs) p TUDAT_NAN Hx eq_refl) by lia.
    cbn [bind].
    rewrite (@element_digits _ N ys (shape xs) p TUDAT_NAN Hy (eq_sym Exy)) by lia.
    cbn [bind].
    rewrite (@element_digits _ N zs (shape xs) p TUDAT_NAN Hz (eq_sym Exz)) by lia.
    reflexivity.
Qed.

Lemma nth_merged_data (dx dy dz : list double) (n p : nat) (default : Vector3 double) :
  p < n ->
  nth p (merged_data dx dy dz n) default
  = mkVector3 (nth p dx TUDAT_NAN) (nth p dy TUDAT_NAN) (nth p dz TUDAT_NAN).
Proof.
  intros Hp. unfold merged_data.
  rewrite (nth_indep _ default
             (mkVector3 (nth 0 dx TUDAT_NAN) (nth 0 dy TUDAT_NAN) (nth 0 dz TUDAT_NAN)))
    by (now rewrite length_map, length_seq).
  rewrite (map_nth (fun p => mkVector3 (nth p dx TUDAT_NAN) (nth p dy TUDAT_NAN)
                                       (nth p dz TUDAT_NAN))).
  now rewrite seq_nth.
Qed.

Lemma merged_well_formed (N : nat) (xs : multi_array double) (dy dz : list double) :
  well_formed N xs ->
  well_formed N (mkMultiArray (shape xs) (merged_data (data xs) dy dz (num_elements xs))).
Proof.
  intros [HN _]; split; [exact HN|].
  unfold merged_data, num_elements; cbn. now rewrite length_map, length_seq.
Qed.

(** C4.  For three scalar [N]-dimensional tables: on identical shapes
    [mergeNDimensionalCoefficients] returns a table of that shape whose
    entry at every multi-index is the 3-vector of the three entries at
    that multi-index; if a size differs in some dimension it fails with
    an error and returns no table. *)
Theorem mergeNDimensionalCoefficients_elementwise
        (N : nat) (xs ys zs : multi_array double) :
  well_formed N xs -> well_formed N ys -> well_formed N zs ->
  (shape xs = shape ys /\ shape xs = shape zs ->
   exists merged,
     mergeNDimensionalCoefficients N xs ys zs = Ok merged /\
     shape merged = shape xs /\
     well_formed N merged /\
     forall indices, in_bounds xs indices = true ->
       exists xv yv zv,
         element xs indices = Ok xv /\
         element ys indices = Ok yv /\
         element zs indices = Ok zv /\
         element merged indices = Ok (mkVector3 xv yv zv))
  /\
  (shape xs <> shape ys \/ shape xs <> shape zs ->
   mergeNDimensionalCoefficients N xs ys zs = Err InconsistentInputSizes).
Proof.
  intros Hx Hy Hz. split.
  - intros [Exy Exz].
    eexists; split; [apply merge_equal_shapes; assumption|].
    split; [reflexivity|].
    split; [apply merged_well_formed; assumption|].
    intros indices Hin.
    set (merged := mkMultiArray _ _).
    assert (Hm : well_formed N merged) by (apply merged_well_formed; assumption).
    assert (Hiny : in_bounds ys indices = true)
      by (unfold in_bounds, num_dimensions in *; now rewrite <- Exy).
    assert (Hinz : in_bounds zs indices = true)
      by (unfold in_bounds, num_dimensions in *; now rewrite <- Exz).
    assert (Hinm : in_bounds merged indices = true) by exact Hin.
    destruct (@element_at_offset _ N xs indices TUDAT_NAN Hx Hin) as [Hlt Ex].
    destruct (@element_at_offset _ N ys indices TUDAT_NAN Hy Hiny) as [_ Ey].
    destruct (@element_at_offset _ N zs indices TUDAT_NAN Hz Hinz) as [_ Ez].
    destruct (@element_at_offset _ N merged indices (mkVector3 TUDAT_NAN TUDAT_NAN TUDAT_NAN)
                                 Hm Hinm) as [_ Em].
    do 3 eexists. repeat split; try eassumption.
    rewrite Em. f_equal.
    assert (Eoff : offset merged indices = offset xs indices) by reflexivity.
    rewrite Eoff. unfold merged; cbn [data].
    rewrite nth_merged_data by exact Hlt.
    unfold offset, strides; now rewrite <- Exy, <- Exz.
  - intros Hdiff.
    unfold mergeNDimensionalCoefficients.
    fold (sizes_differ N (shape xs) (shape ys) (shape zs)).
    destruct (sizes_differ N (shape xs) (shape ys) (shape zs)) eqn:Hsd; [reflexivity|].
    apply sizes_differ_false in Hsd; try (apply Hx || apply Hy || apply Hz).
    destruct Hsd, Hdiff; contradiction.
Qed.

Lemma example_well_formed :
  well_formed 2 exampleX /\ well_formed 2 exampleY /\ well_formed 2 exampleZ.
Proof. repeat split. Qed.

Lemma mergeNDimensionalCoefficients_elementwise_witness :
  (shape exampleX = shape exampleY /\ shape exampleX = shape exampleZ ->
   exists merged,
     mergeNDimensionalCoefficients 2 exampleX exampleY exampleZ = Ok merged /\
     shape merged = shape exampleX /\
     well_formed 2 merged /\
     forall indices, in_bounds exampleX indices = true ->
       exists xv yv zv,
         element exampleX indices = Ok xv /\
         element exampleY indices = Ok yv /\
         element exampleZ indices = Ok zv /\
         element merged indices = Ok (mkVector3 xv yv zv))
  /\
  (shape exampleX <> shape exampleY \/ shape exampleX <> shape exampleZ ->
   mergeNDimensionalCoefficients 2 exampleX exampleY exampleZ = Err InconsistentInputSizes).
Proof.
  apply (@mergeNDimensionalCoefficients_elementwise 2 exampleX exampleY exampleZ).
  - split; reflexivity.
  - split; reflexivity.
  - split; reflexivity.
Defined.

(** The merge on the example tables, run. *)
Example merge_example_entry :
  (try! merged := mergeNDimensionalCoefficients 2 exampleX exampleY exampleZ in
   element merged [1; 2])%result
  = Ok (mkVector3 6 60 600)%float.
Proof. reflexivity. Qed.

Example merge_example_mismatch :
  mergeNDimensionalCoefficients
    2 exampleX exampleY (mkMultiArray [3; 2] [1; 2; 3; 4; 5; 6]%float)
  = Err InconsistentInputSizes.
Proof. reflexivity. Qed.

End MultiArrayFacts.

Module ReaderFacts.
Import boost input_output MultiArraySpec MultiArrayFacts ReaderSpec.

Lemma find_insert {V : Type} (key key' : Z) (value : V) (m : std_map.t V) :
  std_map.find key (std_map.insert key' value m)
  = if (key =? key')%Z then Some value else std_map.find key m.
Proof.
  induction m as [|[k v] m IH]; cbn.
  - reflexivity.
  - destruct (key' <? k)%Z eqn:Hlt; [reflexivity|].
    destruct (key' =? k)%Z eqn:Heq; cbn.
    + apply Z.eqb_eq in Heq; subst k.
      destruct (key =? key')%Z; reflexivity.
    + rewrite IH.
      destruct (key =? k)%Z eqn:Hk, (key =? key')%Z eqn:Hk'; try reflexivity.
      apply Z.eqb_eq in Hk, Hk'. apply Z.eqb_neq in Heq. congruence.
Qed.

Lemma insert_not_empty {V : Type} (key : Z) (value : V) (m : std_map.t V) :
  std_map.insert key value m <> [].
Proof.
  destruct m as [|[k v] m]; cbn; [discriminate|].
  destruct (key <? k)%Z; [discriminate|].
  destruct (key =? k)%Z; discriminate.
Qed.

Lemma size_not_empty {V : Type} (m : std_map.t V) :
  m <> [] -> (std_map.size m =? 0) = false.
Proof. destruct m; [congruence | reflexivity]. Qed.

Lemma find_first {V : Type} (m : std_map.t V) (v : V) :
  std_map.begin_second m = Ok v -> exists k, std_map.find k m = Some v.
Proof.
  destruct m as [|[k v'] m]; cbn; [discriminate|].
  intros [= ->]. exists k. now rewrite Z.eqb_refl.
Qed.

Lemma compareDoubleVectors_length (list1 list2 : list double) :
  compareDoubleVectors list1 list2 = true -> length list1 = length list2.
Proof.
  revert list2; induction list1 as [|a l IH]; intros [|b l'] Hc;
    try discriminate; cbn in *; [reflexivity|].
  apply andb_prop in Hc as [_ Hc]. f_equal; now apply IH.
Qed.

(** Lists that compare equal have the same number of breakpoints in
    every dimension. *)
Lemma compareIndependentVariables_lengths (list1 list2 : list (list double)) :
  compareIndependentVariables list1 list2 = true ->
  List.map (@length double) list1 = List.map (@length double) list2.
Proof.
  revert list2; induction list1 as [|a l IH]; intros [|b l'] Hc;
    try discriminate; cbn in *; [reflexivity|].
  apply andb_prop in Hc as [Ha Hc].
  f_equal; [now apply compareDoubleVectors_length | now apply IH].
Qed.

Lemma nth_repeat_below {A : Type} (a default : A) (n p : nat) :
  p < n -> nth p (repeat a n) default = a.
Proof.
  intros Hp. rewrite (nth_indep _ default a) by (now rewrite repeat_length).
  apply nth_repeat.
Qed.

Section Reading.
Variable readFile : nat -> string -> result (multi_array double * list (list double)).
Variable N : nat.

Local Abbreviation readCoefficientFiles := (readCoefficientFiles readFile N).
Local Abbreviation readAerodynamicCoefficients := (readAerodynamicCoefficients readFile N).
Local Abbreviation readable := (readable readFile N).
Local Abbreviation reader_well_formed := (reader_well_formed readFile N).
Local Abbreviation consistent_with := (consistent_with readFile N).
Local Abbreviation tables_of_shape := (tables_of_shape N).

(** Once a first table is in, a later file whose breakpoints compare
    unequal to the stored ones stops the loop. *)
Lemma readCoefficientFiles_inconsistent (before after : std_map.t string) :
  forall (raw : std_map.t (multi_array double)) (iv0 : list (list double))
         (k : Z) (f : string) (a : multi_array double) (iv : list (list double)),
    raw <> [] ->
    readable before ->
    readFile N f = Ok (a, iv) ->
    compareIndependentVariables iv0 iv = false ->
    readCoefficientFiles (before ++ (k, f) :: after) (raw, iv0)
    = Err InconsistentIndependentVariables.
Proof.
  induction before as [|[k1 f1] before IH]; intros raw iv0 k f a iv Hraw Hread Hf Hcmp;
    cbn [app input_output.readCoefficientFiles]; unfold readCoefficientFile;
    cbn [fst snd].
  - rewrite Hf; cbn [bind fst snd]. rewrite (size_not_empty Hraw), Hcmp. reflexivity.
  - destruct (Hread k1 f1 (or_introl eq_refl)) as (a1 & iv1 & Hf1).
    rewrite Hf1; cbn [bind fst snd]. rewrite (size_not_empty Hraw).
    destruct (compareIndependentVariables iv0 iv1); cbn [bind]; [|reflexivity].
    eapply IH; eauto using insert_not_empty.
    intros k' f' Hin'. apply (Hread k' f'). now right.
Qed.

(** C5.  When the per-axis files are read in the order of the map: if
    the breakpoint lists of a later-read table differ (compare unequal)
    from those of the first-read table, [readAerodynamicCoefficients]
    fails with [InconsistentIndependentVariables] and returns no merged
    table.  The files up to that one are readable; those after it are
    never opened. *)
Theorem readAerodynamicCoefficients_inconsistent
        (k0 : Z) (f0 : string) (before after : std_map.t string)
        (a0 : multi_array double) (iv0 : list (list double))
        (k : Z) (f : string) (a : multi_array double) (iv : list (list double)) :
  readFile N f0 = Ok (a0, iv0) ->
  readable before ->
  readFile N f = Ok (a, iv) ->
  compareIndependentVariables iv0 iv = false ->
  readAerodynamicCoefficients ((k0, f0) :: before ++ (k, f) :: after)
  = Err InconsistentIndependentVariables.
Proof.
  intros Hf0 Hread Hf Hcmp.
  unfold input_output.readAerodynamicCoefficients.
  cbn [input_output.readCoefficientFiles]. unfold readCoefficientFile; cbn [fst snd].
  rewrite Hf0; cbn [bind fst snd std_map.size length Nat.eqb].
  rewrite (@readCoefficientFiles_inconsistent before after _ iv0 k f a iv);
    auto using insert_not_empty.
Qed.

Lemma readCoefficientFiles_consistent (iv0 : list (list double)) (rest : std_map.t string) :
  reader_well_formed ->
  forall raw : std_map.t (multi_array double),
    raw <> [] ->
    tables_of_shape (List.map (@length double) iv0) raw ->
    consistent_with iv0 rest ->
    exists raw',
      readCoefficientFiles rest (raw, iv0) = Ok (raw', iv0) /\
      raw' <> [] /\
      tables_of_shape (List.map (@length double) iv0) raw' /\
      forall key, std_map.find key raw = None -> std_map.find key rest = None ->
                  std_map.find key raw' = None.
Proof.
  intros Hwf.
  induction rest as [|[k1 f1] rest IH]; intros raw Hraw Htab Hcons.
  - exists raw. cbn. auto.
  - cbn [input_output.readCoefficientFiles]. unfold readCoefficientFile; cbn [fst snd].
    destruct (Hcons k1 f1 (or_introl eq_refl)) as (a1 & iv1 & Hf1 & Hcmp1).
    rewrite Hf1; cbn [bind fst snd]. rewrite (size_not_empty Hraw), Hcmp1; cbn [bind].
    destruct (IH (std_map.insert k1 (copyMultiArray a1) raw)) as (raw' & Hrun & Hne & Htab' & Hnone).
    + apply insert_not_empty.
    + intros key a'. rewrite find_insert.
      destruct (key =? k1)%Z; [|apply Htab].
      intros [= <-]. destruct (Hwf _ _ _ Hf1) as [Hwf1 Hshape1].
      split; [exact Hwf1|].
      unfold copyMultiArray. rewrite Hshape1.
      symmetry; now apply compareIndependentVariables_lengths.
    + intros k' f' Hin'. apply (Hcons k' f'). now right.
    + exists raw'.
      split; [exact Hrun|]. split; [exact Hne|]. split; [exact Htab'|].
      intros key Hkraw Hkrest. cbn in Hkrest.
      destruct (key =? k1)%Z eqn:Hk; [discriminate|].
      apply Hnone; [|exact Hkrest].
      now rewrite find_insert, Hk.
Qed.

Lemma coefficientArrayForAxis_shape
      (extents : list nat) (raw : std_map.t (multi_array double))
      (firstMultiArray : multi_array double) (i : Z) :
  tables_of_shape extents raw ->
  well_formed N firstMultiArray -> shape firstMultiArray = extents ->
  exists c,
    coefficientArrayForAxis raw firstMultiArray i = Ok c /\
    well_formed N c /\ shape c = extents /\
    (std_map.find i raw = None ->
     data c = repeat PrimFloat.zero (extent_product extents)).
Proof.
  intros Htab Hfirst Hshape.
  unfold coefficientArrayForAxis, std_map.count, std_map.at_.
  destruct (std_map.find i raw) as [a|] eqn:Hfind; cbn [Nat.eqb negb bind].
  - exists (copyMultiArray a). destruct (Htab _ _ Hfind) as [Hwf Hs].
    repeat split; try apply Hwf; try assumption. discriminate.
  - unfold num_dimensions. rewrite firstn_all, Hshape.
    exists (resized_and_filled extents PrimFloat.zero).
    unfold resized_and_filled, well_formed, num_dimensions, num_elements; cbn.
    repeat split.
    + rewrite <- Hshape. apply Hfirst.
    + now rewrite repeat_length.
Qed.

(** C9.  With an empty map of file names the call fails.  Otherwise,
    for each axis 0, 1 or 2 with no entry in the map the component
    table is one of zeros in the shape of the first table read, so that
    component of every entry of the merged table is zero; the merged table
    is a well-formed table of that shape, with as many entries as the
    first table read. *)
Theorem readAerodynamicCoefficients_missing_axes :
  readAerodynamicCoefficients [] = Err NoFilesRead
  /\
  (forall (rawCoefficientArrays : std_map.t (multi_array double))
          (firstMultiArray : multi_array double) (i : Z),
      std_map.count i rawCoefficientArrays = 0 ->
      coefficientArrayForAxis rawCoefficientArrays firstMultiArray i
      = Ok (resized_and_filled (shape firstMultiArray) PrimFloat.zero))
  /\
  forall (k0 : Z) (f0 : string) (rest : std_map.t string)
         (a0 : multi_array double) (iv0 : list (list double)),
    reader_well_formed ->
    readFile N f0 = Ok (a0, iv0) ->
    consistent_with iv0 rest ->
    exists merged,
      readAerodynamicCoefficients ((k0, f0) :: rest) = Ok (merged, iv0) /\
      shape merged = shape a0 /\
      well_formed N merged /\
      length (data merged) = num_elements a0 /\
      forall i : nat,
        i < 3 ->
        std_map.count (Z.of_nat i) ((k0, f0) :: rest) = 0 ->
        Forall (fun v => Eigen.coeff v i = PrimFloat.zero) (data merged).
Proof.
  split; [reflexivity|]. split.
  { intros rawCoefficientArrays firstMultiArray i Hcount.
    unfold coefficientArrayForAxis. rewrite Hcount. cbn [Nat.eqb negb].
    unfold num_dimensions. now rewrite firstn_all. }
  intros k0 f0 rest a0 iv0 Hwf Hf0 Hcons.
  destruct (Hwf _ _ _ Hf0) as [Hwf0 Hshape0].
  unfold input_output.readAerodynamicCoefficients.
  cbn [input_output.readCoefficientFiles]. unfold readCoefficientFile; cbn [fst snd].
  rewrite Hf0; cbn [bind fst snd std_map.size length Nat.eqb].
  destruct (@readCoefficientFiles_consistent iv0 rest Hwf
              (std_map.insert k0 (copyMultiArray a0) []))
    as (raw & Hrun & Hne & Htab & Hnone).
  { apply insert_not_empty. }
  { intros key a'. rewrite find_insert.
    destruct (key =? k0)%Z; [|discriminate].
    intros [= <-]. now split. }
  { exact Hcons. }
  rewrite Hrun; cbn [bind fst snd]. rewrite (size_not_empty Hne).
  destruct raw as [|[kf first] raw]; [congruence|].
  cbn [std_map.begin_second bind].
  set (rawAll := (kf, first) :: raw) in *.
  assert (Hfirst : well_formed N first /\ shape first = List.map (@length double) iv0).
  { apply (Htab kf). unfold rawAll; cbn. now rewrite Z.eqb_refl. }
  destruct Hfirst as [Hfirstwf Hfirstshape].
  destruct (@coefficientArrayForAxis_shape _ rawAll first 0%Z Htab Hfirstwf Hfirstshape)
    as (c0 & -> & Hc0 & Hs0 & Hz0).
  destruct (@coefficientArrayForAxis_shape _ rawAll first 1%Z Htab Hfirstwf Hfirstshape)
    as (c1 & -> & Hc1 & Hs1 & Hz1).
  destruct (@coefficientArrayForAxis_shape _ rawAll first 2%Z Htab Hfirstwf Hfirstshape)
    as (c2 & -> & Hc2 & Hs2 & Hz2).
  cbn [bind].
  rewrite (@merge_equal_shapes N c0 c1 c2) by congruence.
  cbn [bind]. eexists; split; [reflexivity|].
  split; [cbn; congruence|].
  split; [apply merged_well_formed; exact Hc0|].
  split.
  { cbn [data]. unfold merged_data, num_elements.
    now rewrite length_map, length_seq, Hs0, Hshape0. }
  intros i Hi Hcount.
  assert (Hmissing : std_map.find (Z.of_nat i) rawAll = None).
  { unfold std_map.count in Hcount.
    destruct (std_map.find (Z.of_nat i) ((k0, f0) :: rest)) eqn:Hfind; [discriminate|].
    cbn in Hfind.
    destruct (Z.of_nat i =? k0)%Z eqn:Hk; [discriminate|].
    apply Hnone; [|exact Hfind].
    rewrite find_insert, Hk. reflexivity. }
  cbn [data]. unfold merged_data. apply Forall_map, Forall_forall.
  intros p Hp. apply in_seq in Hp. unfold num_elements in Hp. rewrite Hs0 in Hp.
  destruct i as [|[|[|i]]]; try lia; cbn [Eigen.coeff vx vy vz].
  - rewrite (Hz0 Hmissing). apply nth_repeat_below; lia.
  - rewrite (Hz1 Hmissing). apply nth_repeat_below; lia.
  - rewrite (Hz2 Hmissing). apply nth_repeat_below; lia.
Qed.

End Reading.
End ReaderFacts.

Module ReaderExamples.
Import boost input_output MultiArraySpec ReaderSpec ReaderData MultiArrayFacts ReaderFacts.
Local Open Scope string_scope.

Lemma exampleReader_well_formed : reader_well_formed exampleReader 2.
Proof.
  intros f a iv. unfold exampleReader.
  destruct (String.eqb f "Cx.dat"); [intros [= <- <-]; repeat split|].
  destruct (String.eqb f "Cy.dat"); [intros [= <- <-]; repeat split|].
  destruct (String.eqb f "Cz.dat"); [intros [= <- <-]; repeat split|].
  discriminate.
Qed.

Lemma readAerodynamicCoefficients_inconsistent_witness :
  readAerodynamicCoefficients exampleReader 2
    ((0%Z, "Cx.dat") :: [(1%Z, "Cy.dat")] ++ (2%Z, "Cz.dat") :: [])
  = Err InconsistentIndependentVariables.
Proof.
  apply (@readAerodynamicCoefficients_inconsistent
           exampleReader 2 0%Z "Cx.dat" [(1%Z, "Cy.dat")] []
           exampleX breakpointsA 2%Z "Cz.dat" exampleZ breakpointsB).
  - reflexivity.
  - intros k f [Hin|[]]; injection Hin as <- <-; eexists; eexists; reflexivity.
  - reflexivity.
  - reflexivity.
Defined.

(** Breakpoints are compared with [==]: a list holding a NaN compares
    unequal to itself, and the two zeros compare equal. *)
Example compareIndependentVariables_on_nan_and_zeros :
  compareIndependentVariables [[TUDAT_NAN]] [[TUDAT_NAN]] = false /\
  compareIndependentVariables [[0%float]] [[(-0)%float]] = true.
Proof. split; reflexivity. Qed.

Lemma readAerodynamicCoefficients_missing_axes_witness :
  exists merged,
    readAerodynamicCoefficients exampleReader 2 [(0%Z, "Cx.dat"); (1%Z, "Cy.dat")]
    = Ok (merged, breakpointsA) /\
    shape merged = shape exampleX /\
    well_formed 2 merged /\
    length (data merged) = num_elements exampleX /\
    forall i : nat,
      i < 3 ->
      std_map.count (Z.of_nat i) [(0%Z, "Cx.dat"); (1%Z, "Cy.dat")] = 0 ->
      Forall (fun v => Eigen.coeff v i = PrimFloat.zero) (data merged).
Proof.
  apply (proj2 (proj2 (@readAerodynamicCoefficients_missing_axes exampleReader 2))
               0%Z "Cx.dat" [(1%Z, "Cy.dat")] exampleX breakpointsA).
  - exact exampleReader_well_formed.
  - reflexivity.
  - intros k f [Hin|[]]; injection Hin as <- <-.
    exists exampleY, breakpointsA. split; reflexivity.
Defined.

(** The same two calls, run. *)
Example read_two_axes :
  readAerodynamicCoefficients exampleReader 2 [(0%Z, "Cx.dat"); (1%Z, "Cy.dat")]
  = Ok (mkMultiArray [2; 3]
          [mkVector3 1 10 0; mkVector3 2 20 0; mkVector3 3 30 0;
           mkVector3 4 40 0; mkVector3 5 50 0; mkVector3 6 60 0]%float,
        breakpointsA).
Proof. reflexivity. Qed.

Example read_second_axis_only :
  readAerodynamicCoefficients exampleReader 2 [(1%Z, "Cy.dat")]
  = Ok (mkMultiArray [2; 3]
          [mkVector3 0 10 0; mkVector3 0 20 0; mkVector3 0 30 0;
           mkVector3 0 40 0; mkVector3 0 50 0; mkVector3 0 60 0]%float,
        breakpointsA).
Proof. reflexivity. Qed.

Example read_unreadable_file :
  readAerodynamicCoefficients exampleReader 2 [(0%Z, "Cx.dat"); (1%Z, "missing.dat")]
  = Err (FileNotReadable "missing.dat").
Proof. reflexivity. Qed.

End ReaderExamples.

Module EphemerisFacts.
Import reference_frames aerodynamic_angle_ephemeris.

Section Facts.
Context {collaborators : Collaborators}.

(** C2 (as amended).  For every time, [getDerivativeOfRotationToBaseFrame]
    and [getDerivativeOfRotationToTargetFrame] of an
    [AerodynamicAngleRotationalEphemeris] do not fail: each returns the
    3x3 matrix whose nine coefficients are [TUDAT_NAN]. *)
Theorem derivative_queries_return_nan
        (t : double) (this : AerodynamicAngleRotationalEphemeris) :
  getDerivativeOfRotationToBaseFrame t this = Ok (Eigen.Constant TUDAT_NAN) /\
  getDerivativeOfRotationToTargetFrame t this = Ok (Eigen.Constant TUDAT_NAN) /\
  PrimFloat.is_nan (m00 (Eigen.Constant TUDAT_NAN)) = true.
Proof. repeat split. Qed.

(** C6.  For every time, [getRotationToTargetFrame] returns the inverse
    of what [getRotationToBaseFrame] returns at that time, leaves the
    object in the same state, and fails exactly when the latter fails. *)
Theorem getRotationToTargetFrame_is_inverse
        (t : double) (this : AerodynamicAngleRotationalEphemeris) :
  getRotationToTargetFrame t this
  = match getRotationToBaseFrame t this with
    | Ok (q, this') => Ok (quaternionInverse q, this')
    | Err e => Err e
    end.
Proof.
  unfold getRotationToTargetFrame.
  destruct (getRotationToBaseFrame t this) as [[q this']|e]; reflexivity.
Qed.

Lemma update_sets_time (t : double) (this this' : AerodynamicAngleRotationalEphemeris) :
  update t this = Ok this' ->
  PrimFloat.eqb t t = true ->
  PrimFloat.eqb t (currentTime_ this') = true.
Proof.
  unfold update. intros Hu Ht.
  destruct (PrimFloat.eqb t (currentTime_ this)) eqn:Hmemo.
  - injection Hu as <-. exact Hmemo.
  - destruct (aerodynamicAngleFunction_ this); [|discriminate].
    injection Hu as <-. exact Ht.
Qed.

(** The memoization rule of [update]. *)
Lemma update_same_time (t : double) (this : AerodynamicAngleRotationalEphemeris) :
  PrimFloat.eqb t (currentTime_ this) = true -> update t this = Ok this.
Proof. unfold update. now intros ->. Qed.

(** Asked in turn at one time, the two queries agree as well: the
    second one recomputes nothing. *)
Lemma getRotationToTargetFrame_after_base
      (t : double) (this this' : AerodynamicAngleRotationalEphemeris)
      (q : Quaternion double) :
  PrimFloat.eqb t t = true ->
  getRotationToBaseFrame t this = Ok (q, this') ->
  getRotationToTargetFrame t this' = Ok (quaternionInverse q, this').
Proof.
  intros Ht Hbase. unfold getRotationToTargetFrame.
  unfold getRotationToBaseFrame in *.
  destruct (update t this) as [this1|] eqn:Hu; [|discriminate].
  cbn [bind] in Hbase. injection Hbase as <- <-.
  rewrite (update_same_time _ (update_sets_time _ Hu Ht)). reflexivity.
Qed.

(** With an inverse that is an involution at the value returned, the
    identity reads the other way round. *)
Lemma getRotationToTargetFrame_inverse_back
      (t : double) (this this' : AerodynamicAngleRotationalEphemeris)
      (q : Quaternion double) :
  quaternionInverse (quaternionInverse q) = q ->
  getRotationToBaseFrame t this = Ok (q, this') ->
  exists p, getRotationToTargetFrame t this = Ok (p, this') /\ quaternionInverse p = q.
Proof.
  intros Hinv Hbase. unfold getRotationToTargetFrame. rewrite Hbase. cbn [bind fst snd]. eauto.
Qed.

(** C7.  A call [update( t )] with [t] equal to the cached time does
    nothing: the object is as before and the angle function is not
    invoked.  So of two consecutive calls [update( t )] at a time [t]
    not cached before, the first invokes the angle function, once, and
    the second leaves what the first produced.  Times are numbers:
    [t == t]. *)
Theorem update_memoized (t : double) (this : AerodynamicAngleRotationalEphemeris) :
  (PrimFloat.eqb t (currentTime_ this) = true -> update t this = Ok this)
  /\
  (forall aerodynamicAngleFunction,
      aerodynamicAngleFunction_ this = Some aerodynamicAngleFunction ->
      PrimFloat.eqb t (currentTime_ this) = false ->
      PrimFloat.eqb t t = true ->
      exists this',
        update t this = Ok this' /\
        angleFunctionCalls_ this' = t :: angleFunctionCalls_ this /\
        currentBodyAngles_ this' = aerodynamicAngleFunction t /\
        update t this' = Ok this').
Proof.
  split; [apply update_same_time|].
  intros f Hf Hnew Ht.
  assert (Hu : update t this
               = Ok {| baseFrameOrientation_ := baseFrameOrientation_ this;
                       targetFrameOrientation_ := targetFrameOrientation_ this;
                       aerodynamicAngleCalculator_ :=
                         updateCalculator t (f t) (aerodynamicAngleCalculator_ this);
                       aerodynamicAngleFunction_ := aerodynamicAngleFunction_ this;
                       currentBodyAngles_ := f t;
                       currentTime_ := t;
                       isBodyInPropagation_ := isBodyInPropagation_ this;
                       angleFunctionCalls_ := t :: angleFunctionCalls_ this |}).
  { unfold update. now rewrite Hnew, Hf. }
  eexists; split; [exact Hu|].
  repeat split. apply update_same_time. exact Ht.
Qed.

(** Whatever the first call did, a second call at the same time changes
    nothing and invokes nothing. *)
Lemma update_twice (t : double) (this this' : AerodynamicAngleRotationalEphemeris) :
  PrimFloat.eqb t t = true ->
  update t this = Ok this' ->
  update t this' = Ok this'.
Proof.
  intros Ht Hu. apply update_same_time. exact (update_sets_time _ Hu Ht).
Qed.

(** After [resetCurrentTime] the next [update] recomputes, at whatever
    time it is called. *)
Lemma update_after_reset (t : double) (this : AerodynamicAngleRotationalEphemeris)
      (aerodynamicAngleFunction : double -> Vector3 double) :
  aerodynamicAngleFunction_ this = Some aerodynamicAngleFunction ->
  exists this',
    update t (resetCurrentTime this) = Ok this' /\
    angleFunctionCalls_ this' = t :: angleFunctionCalls_ this.
Proof.
  intros Hf. unfold update, resetCurrentTime; cbn [currentTime_ aerodynamicAngleFunction_].
  assert (Hnan : PrimFloat.eqb t TUDAT_NAN = false).
  { unfold TUDAT_NAN. rewrite eqb_spec.
    destruct (Prim2SF t) as [s| s| |s m e]; reflexivity. }
  rewrite Hnan, Hf. eexists; split; reflexivity.
Qed.

(** C10.  After [addSideslipBankAngleFunctions g]: if no angle function
    was registered, the registered one returns angle of attack 0.0
    together with [g t] at every time [t]; if [f] was registered, it
    returns the angle of attack [f t (0)] of [f] together with [g t]. *)
Theorem addSideslipBankAngleFunctions_angles
        (g : double -> Vector2 double) (this : AerodynamicAngleRotationalEphemeris) :
  (aerodynamicAngleFunction_ this = None ->
   exists f',
     aerodynamicAngleFunction_ (addSideslipBankAngleFunctions g this) = Some f' /\
     forall t, f' t = mkVector3 PrimFloat.zero (v2_0 (g t)) (v2_1 (g t)))
  /\
  (forall f,
      aerodynamicAngleFunction_ this = Some f ->
      exists f',
        aerodynamicAngleFunction_ (addSideslipBankAngleFunctions g this) = Some f' /\
        forall t, f' t = mkVector3 (Eigen.coeff (f t) 0) (v2_0 (g t)) (v2_1 (g t))).
Proof.
  unfold addSideslipBankAngleFunctions. split.
  - intros ->. eexists; split; reflexivity.
  - intros f ->. eexists; split; reflexivity.
Qed.

(** The other members are as they were. *)
Lemma addSideslipBankAngleFunctions_frame
      (g : double -> Vector2 double) (this : AerodynamicAngleRotationalEphemeris) :
  let this' := addSideslipBankAngleFunctions g this in
  currentTime_ this' = currentTime_ this /\
  currentBodyAngles_ this' = currentBodyAngles_ this /\
  aerodynamicAngleCalculator_ this' = aerodynamicAngleCalculator_ this /\
  angleFunctionCalls_ this' = angleFunctionCalls_ this.
Proof.
  unfold addSideslipBankAngleFunctions.
  destruct (aerodynamicAngleFunction_ this); repeat split.
Qed.

End Facts.
End EphemerisFacts.

Module EphemerisExamples.
Import reference_frames aerodynamic_angle_ephemeris EphemerisData EphemerisFacts.
Local Open Scope float_scope.

(** The derivative queries at time 0 return the matrix of NaNs; they do
    not fail, with [UnsupportedOperation] or otherwise. *)
Lemma derivative_queries_do_not_fail :
  getDerivativeOfRotationToBaseFrame 0 exampleEphemeris = Ok (Eigen.Constant TUDAT_NAN) /\
  getDerivativeOfRotationToBaseFrame 0 exampleEphemeris <> Err UnsupportedOperation /\
  getDerivativeOfRotationToTargetFrame 0 exampleEphemeris = Ok (Eigen.Constant TUDAT_NAN) /\
  getDerivativeOfRotationToTargetFrame 0 exampleEphemeris <> Err UnsupportedOperation.
Proof. repeat split; discriminate. Qed.

Lemma update_memoized_witness :
  exists this',
    update 1 exampleEphemeris = Ok this' /\
    angleFunctionCalls_ this' = 1 :: angleFunctionCalls_ exampleEphemeris /\
    currentBodyAngles_ this' = exampleAngles 1 /\
    update 1 this' = Ok this'.
Proof.
  apply (proj2 (@update_memoized exampleCollaborators 1 exampleEphemeris) exampleAngles);
    reflexivity.
Defined.

(** Two updates at time 1, then one at time 2: the angle function has
    been invoked at 1 and at 2, once each. *)
Example update_call_log :
  (try! e1 := update 1 exampleEphemeris in
   try! e2 := update 1 e1 in
   try! e3 := update 2 e2 in
   Ok (angleFunctionCalls_ e3, currentBodyAngles_ e3))%result
  = Ok ([2; 1], mkVector3 4 0 3).
Proof. reflexivity. Qed.

(** [TUDAT_NAN] is the cleared cached time and equals no time, itself
    included: updates at NaN recompute every time. *)
Example update_at_nan_recomputes :
  (try! e1 := update TUDAT_NAN exampleEphemeris in
   try! e2 := update TUDAT_NAN e1 in
   Ok (length (angleFunctionCalls_ e2)))%result
  = Ok 2%nat.
Proof. reflexivity. Qed.

Example query_before_registration :
  getRotationToBaseFrame 1 incompleteEphemeris = Err ClosureNotReady /\
  getRotationToTargetFrame 1 incompleteEphemeris = Err ClosureNotReady.
Proof. split; reflexivity. Qed.

Example query_after_registration :
  is_ok (getRotationToTargetFrame 1
           (setAerodynamicAngleFunction (Some exampleAngles) incompleteEphemeris))
  = true.
Proof. reflexivity. Qed.

Example sideslip_bank_on_incomplete :
  match aerodynamicAngleFunction_
          (addSideslipBankAngleFunctions (fun t => mkVector2 t (t + 1)) incompleteEphemeris)
  with
  | Some f => f 5 = mkVector3 0 5 6
  | None => False
  end.
Proof. reflexivity. Qed.

Example sideslip_bank_on_registered :
  match aerodynamicAngleFunction_
          (addSideslipBankAngleFunctions (fun t => mkVector2 t (t + 1)) exampleEphemeris)
  with
  | Some f => f 5 = mkVector3 10 5 6
  | None => False
  end.
Proof. reflexivity. Qed.

End EphemerisExamples.

Module FactoryFacts.
Import boost simulation_setup FactorySpec.

Lemma traverse_all_ok {A B : Type} (f : A -> result B) (l : list A) :
  Forall (fun a => is_ok (f a) = true) l -> exists bs, traverse f l = Ok bs.
Proof.
  induction 1 as [|a l Ha _ IH]; cbn; [eauto|].
  destruct (f a); [|discriminate]. destruct IH as [bs ->]. eauto.
Qed.

(** The [switch] over the number of dimensions falls to [default:]
    outside 1..6. *)
Lemma dimension_switch_default {A : Type} (numberOfDimensions : Z) (a1 a2 a3 a4 a5 a6 d : A) :
  (numberOfDimensions < 1 \/ 6 < numberOfDimensions)%Z ->
  match numberOfDimensions with
  | 1%Z => a1 | 2%Z => a2 | 3%Z => a3 | 4%Z => a4 | 5%Z => a5 | 6%Z => a6
  | _ => d
  end = d.
Proof.
  intros Hout.
  destruct numberOfDimensions as [|p|p]; try reflexivity.
  destruct p as [[[p|p|]|[p|p|]|]|[[p|p|]|[p|p|]|]|]; try reflexivity; lia.
Qed.

Section Facts.
Context {collaborators : Collaborators}.

(** C8.  For every 1-dimensional tabulated settings object, the
    interface built by
    [createUnivariateTabulatedCoefficientAerodynamicCoefficientInterface]
    has its force and its moment coefficient function both made from
    the force coefficient table, so the moment coefficients it returns
    equal the force coefficients at every value of the independent
    variable. *)
Theorem univariate_moment_interpolator_from_force_table
        (coefficientSettings : AerodynamicCoefficientSettings) (body : string)
        (forceCoefficients momentCoefficients : list (double * Vector3 double))
        (interpolationSettings : InterpolatorSettings) :
  payload coefficientSettings
  = UnivariateTabulatedSettings forceCoefficients momentCoefficients interpolationSettings ->
  exists interface,
    createUnivariateTabulatedCoefficientAerodynamicCoefficientInterface
      coefficientSettings body = Ok interface /\
    forceCoefficientFunction interface
    = createOneDimensionalInterpolator forceCoefficients interpolationSettings /\
    momentCoefficientFunction interface
    = createOneDimensionalInterpolator forceCoefficients interpolationSettings /\
    forall independentVariables,
      momentCoefficientFunction interface independentVariables
      = forceCoefficientFunction interface independentVariables.
Proof.
  intros Hpayload.
  unfold createUnivariateTabulatedCoefficientAerodynamicCoefficientInterface.
  rewrite Hpayload. eexists; repeat split.
Qed.

(** The moment coefficient table of the settings has no bearing on the
    interface. *)
Lemma univariate_moment_table_ignored
      (coefficientSettings coefficientSettings' : AerodynamicCoefficientSettings)
      (body : string)
      (forceCoefficients momentCoefficients momentCoefficients' :
         list (double * Vector3 double))
      (interpolationSettings : InterpolatorSettings) :
  payload coefficientSettings
  = UnivariateTabulatedSettings forceCoefficients momentCoefficients interpolationSettings ->
  payload coefficientSettings'
  = UnivariateTabulatedSettings forceCoefficients momentCoefficients' interpolationSettings ->
  referenceLength coefficientSettings = referenceLength coefficientSettings' ->
  referenceArea coefficientSettings = referenceArea coefficientSettings' ->
  momentReferencePoint coefficientSettings = momentReferencePoint coefficientSettings' ->
  independentVariableNames coefficientSettings
  = independentVariableNames coefficientSettings' ->
  areCoefficientsInAerodynamicFrame coefficientSettings
  = areCoefficientsInAerodynamicFrame coefficientSettings' ->
  areCoefficientsInNegativeAxisDirection coefficientSettings
  = areCoefficientsInNegativeAxisDirection coefficientSettings' ->
  createUnivariateTabulatedCoefficientAerodynamicCoefficientInterface
    coefficientSettings body
  = createUnivariateTabulatedCoefficientAerodynamicCoefficientInterface
      coefficientSettings' body.
Proof.
  intros Hp Hp' Hl Ha Hm Hn Hf Hd.
  unfold createUnivariateTabulatedCoefficientAerodynamicCoefficientInterface.
  rewrite Hp, Hp', Hl, Ha, Hm, Hn, Hf, Hd. reflexivity.
Qed.

Lemma univariate_builder (coefficientSettings : AerodynamicCoefficientSettings)
      (body : string) :
  if isTabulatedOfDimension 1 (payload coefficientSettings)
  then exists interface,
      createUnivariateTabulatedCoefficientAerodynamicCoefficientInterface
        coefficientSettings body = Ok interface
  else createUnivariateTabulatedCoefficientAerodynamicCoefficientInterface
         coefficientSettings body = Err (SettingsTypeMismatch 1).
Proof.
  unfold createUnivariateTabulatedCoefficientAerodynamicCoefficientInterface,
    isTabulatedOfDimension.
  destruct (payload coefficientSettings) as [| | |M ? ? ?]; cbn; eauto.
  rewrite andb_false_r. reflexivity.
Qed.

Lemma tabulated_builder (N : nat) (coefficientSettings : AerodynamicCoefficientSettings)
      (body : string) :
  2 <= N ->
  if isTabulatedOfDimension N (payload coefficientSettings)
  then exists interface,
      createTabulatedCoefficientAerodynamicCoefficientInterface
        N coefficientSettings body = Ok interface
  else createTabulatedCoefficientAerodynamicCoefficientInterface
         N coefficientSettings body = Err (SettingsTypeMismatch (Z.of_nat N)).
Proof.
  intros HN.
  unfold createTabulatedCoefficientAerodynamicCoefficientInterface,
    isTabulatedOfDimension.
  assert (H1 : (N =? 1) = false) by (apply Nat.eqb_neq; lia).
  destruct (payload coefficientSettings) as [| | |M ? ? ?];
    rewrite ?H1; cbn [negb andb]; try reflexivity.
  rewrite andb_true_r. destruct (M =? N); eauto.
Qed.

(** The baseline builder selected for a tabulated descriptor. *)
Lemma baseline_tabulated (coefficientSettings : AerodynamicCoefficientSettings)
      (body : string) :
  aerodynamicCoefficientType coefficientSettings = tabulated_coefficients ->
  let N := length (independentVariableNames coefficientSettings) in
  (N < 1 \/ 6 < N ->
   createBaselineCoefficientInterface coefficientSettings body
   = Err (UnsupportedDimensionality (Z.of_nat N)))
  /\
  (1 <= N <= 6 ->
   if isTabulatedOfDimension N (payload coefficientSettings)
   then exists interface,
       createBaselineCoefficientInterface coefficientSettings body = Ok interface
   else createBaselineCoefficientInterface coefficientSettings body
        = Err (SettingsTypeMismatch (Z.of_nat N))).
Proof.
  intros Htype. cbv zeta. unfold createBaselineCoefficientInterface. rewrite Htype.
  generalize (length (independentVariableNames coefficientSettings)) as N.
  intros N. split.
  - intros Hout. apply dimension_switch_default. lia.
  - intros Hin.
    destruct N as [|[|[|[|[|[|[|n]]]]]]]; try lia;
      cbn [Z.of_nat Pos.of_succ_nat Pos.succ].
    + apply univariate_builder.
    + apply (@tabulated_builder 2); lia.
    + apply (@tabulated_builder 3); lia.
    + apply (@tabulated_builder 4); lia.
    + apply (@tabulated_builder 5); lia.
    + apply (@tabulated_builder 6); lia.
Qed.

(** C3 (as amended).  For a settings descriptor tagged as tabulated that
    declares [N] independent variables,
    [createAerodynamicCoefficientInterface] fails with
    [UnsupportedDimensionality] for every [N] outside 1..6 (so for 7);
    for [N] in 1..6 it succeeds when the descriptor is the tabulated
    settings of that dimension and each of its control surface
    descriptors builds, and it fails with [SettingsTypeMismatch] when
    the descriptor is not the tabulated settings of that dimension. *)
Theorem createAerodynamicCoefficientInterface_dimensionality
        (coefficientSettings : AerodynamicCoefficientSettings) (body : string) :
  aerodynamicCoefficientType coefficientSettings = tabulated_coefficients ->
  let N := length (independentVariableNames coefficientSettings) in
  (N < 1 \/ 6 < N ->
   createAerodynamicCoefficientInterface coefficientSettings body
   = Err (UnsupportedDimensionality (Z.of_nat N)))
  /\
  (1 <= N <= 6 ->
   isTabulatedOfDimension N (payload coefficientSettings) = true ->
   controlSurfacesBuild coefficientSettings body ->
   exists interface,
     createAerodynamicCoefficientInterface coefficientSettings body = Ok interface)
  /\
  (1 <= N <= 6 ->
   isTabulatedOfDimension N (payload coefficientSettings) = false ->
   createAerodynamicCoefficientInterface coefficientSettings body
   = Err (SettingsTypeMismatch (Z.of_nat N))).
Proof.
  intros Htype N.
  destruct (@baseline_tabulated coefficientSettings body Htype) as [Hout Hin].
  fold N in Hout, Hin.
  unfold createAerodynamicCoefficientInterface.
  split; [|split].
  - intros HN. rewrite (Hout HN). reflexivity.
  - intros HN Hpayload Hsurfaces. specialize (Hin HN). rewrite Hpayload in Hin.
    destruct Hin as [interface ->]. cbn [bind].
    destruct (negb (length (controlSurfaceSettings coefficientSettings) =? 0));
      [|eauto].
    destruct (@traverse_all_ok _ _
                (fun settingIterator =>
                   bind (createControlSurfaceIncrementAerodynamicCoefficientInterface
                           (snd settingIterator) body)
                        (fun increment => Ok (fst settingIterator, increment)))
                (controlSurfaceSettings coefficientSettings))
      as [increments ->]; [|cbn [bind]; eauto].
    eapply Forall_impl; [|exact Hsurfaces].
    intros entry Hentry; cbn beta in *.
    destruct (createControlSurfaceIncrementAerodynamicCoefficientInterface
                (snd entry) body); [reflexivity | discriminate].
  - intros HN Hpayload. specialize (Hin HN). rewrite Hpayload in Hin.
    rewrite Hin. reflexivity.
Qed.

(** A control surface descriptor that does not build fails the whole
    build, whatever the baseline. *)
Lemma control_surface_failure_propagates
      (coefficientSettings : AerodynamicCoefficientSettings) (body : string)
      (name : string)
      (surface : ControlSurfaceIncrementAerodynamicCoefficientSettings)
      (others : list (string * ControlSurfaceIncrementAerodynamicCoefficientSettings))
      (e : error) :
  controlSurfaceSettings coefficientSettings = (name, surface) :: others ->
  createControlSurfaceIncrementAerodynamicCoefficientInterface surface body = Err e ->
  is_ok (createAerodynamicCoefficientInterface coefficientSettings body) = false.
Proof.
  intros Hsurfaces Herr. unfold createAerodynamicCoefficientInterface.
  destruct (createBaselineCoefficientInterface coefficientSettings body);
    [|reflexivity].
  cbn [bind]. rewrite Hsurfaces. cbn [length Nat.eqb negb traverse snd].
  rewrite Herr. reflexivity.
Qed.

(** Settings read from files: more than three independent variables in
    the file are refused, whatever the reader of a given size does. *)
Lemma readTabulatedAerodynamicCoefficientsFromFiles_up_to_three
      (readGivenSize : nat -> std_map.t string -> std_map.t string ->
                       result AerodynamicCoefficientSettings)
      (forceCoefficientFiles momentCoefficientFiles : std_map.t string)
      (firstFile : string) (numberOfIndependentVariables : Z) :
  std_map.find 0%Z forceCoefficientFiles = Some firstFile ->
  getNumberOfIndependentVariablesInCoefficientFile firstFile
  = Ok numberOfIndependentVariables ->
  (numberOfIndependentVariables < 1 \/ 3 < numberOfIndependentVariables)%Z ->
  readTabulatedAerodynamicCoefficientsFromFiles
    readGivenSize forceCoefficientFiles momentCoefficientFiles
  = Err (UnsupportedFileDimensionality numberOfIndependentVariables).
Proof.
  intros Hfile Hnumber Hout.
  unfold readTabulatedAerodynamicCoefficientsFromFiles, std_map.at_.
  rewrite Hfile; cbn [bind]. rewrite Hnumber; cbn [bind].
  destruct (Z.eqb_spec numberOfIndependentVariables 1); [lia|].
  destruct (Z.eqb_spec numberOfIndependentVariables 2); [lia|].
  destruct (Z.eqb_spec numberOfIndependentVariables 3); [lia|].
  reflexivity.
Qed.

End Facts.
End FactoryFacts.

Module FactoryExamples.
Import boost simulation_setup FactorySpec FactoryData FactoryFacts.
Local Open Scope float_scope.
Local Open Scope string_scope.

Lemma univariate_moment_interpolator_from_force_table_witness :
  exists interface,
    createUnivariateTabulatedCoefficientAerodynamicCoefficientInterface
      univariateSettings "Vehicle" = Ok interface /\
    forceCoefficientFunction interface
    = @createOneDimensionalInterpolator exampleCollaborators forceTable tt /\
    momentCoefficientFunction interface
    = @createOneDimensionalInterpolator exampleCollaborators forceTable tt /\
    forall independentVariables,
      momentCoefficientFunction interface independentVariables
      = forceCoefficientFunction interface independentVariables.
Proof.
  apply (@univariate_moment_interpolator_from_force_table
           exampleCollaborators univariateSettings "Vehicle" forceTable momentTable tt).
  reflexivity.
Defined.

(** The moment coefficients of the univariate interface at breakpoint 1:
    the force coefficients there, not the entry of the moment table. *)
Example univariate_moment_at_breakpoint :
  match createUnivariateTabulatedCoefficientAerodynamicCoefficientInterface
          univariateSettings "Vehicle" with
  | Ok interface =>
      momentCoefficientFunction interface [1] = mkVector3 2 0 0 /\
      forceCoefficientFunction interface [1] = mkVector3 2 0 0
  | Err _ => False
  end.
Proof. split; reflexivity. Qed.

Lemma createAerodynamicCoefficientInterface_dimensionality_witness :
  let N := length (independentVariableNames bivariateSettings) in
  (N < 1 \/ 6 < N ->
   createAerodynamicCoefficientInterface bivariateSettings "Vehicle"
   = Err (UnsupportedDimensionality (Z.of_nat N)))
  /\
  (1 <= N <= 6 ->
   isTabulatedOfDimension N (payload bivariateSettings) = true ->
   controlSurfacesBuild bivariateSettings "Vehicle" ->
   exists interface,
     createAerodynamicCoefficientInterface bivariateSettings "Vehicle" = Ok interface)
  /\
  (1 <= N <= 6 ->
   isTabulatedOfDimension N (payload bivariateSettings) = false ->
   createAerodynamicCoefficientInterface bivariateSettings "Vehicle"
   = Err (SettingsTypeMismatch (Z.of_nat N))).
Proof.
  apply (@createAerodynamicCoefficientInterface_dimensionality
           exampleCollaborators bivariateSettings "Vehicle").
  reflexivity.
Defined.

Example bivariate_builds :
  is_ok (createAerodynamicCoefficientInterface bivariateSettings "Vehicle") = true.
Proof. reflexivity. Qed.

Example seven_variables_refused :
  createAerodynamicCoefficientInterface sevenVariableSettings "Vehicle"
  = Err (UnsupportedDimensionality 7).
Proof. reflexivity. Qed.

(** A descriptor tagged as tabulated and declaring one independent
    variable, within 1..6, for which no interface is built: the descriptor
    is not a [TabulatedAerodynamicCoefficientSettings< 1 >] and the check
    of lines 232-237 throws. *)
Lemma tabulated_tag_within_bounds_fails :
  aerodynamicCoefficientType untypedSettings = tabulated_coefficients /\
  length (independentVariableNames untypedSettings) = 1%nat /\
  createAerodynamicCoefficientInterface untypedSettings "Vehicle"
  = Err (SettingsTypeMismatch 1).
Proof. repeat split. Qed.

(** The same with the right settings class and a control surface that
    does not build. *)
Example odd_control_surface_fails :
  createAerodynamicCoefficientInterface settingsWithOddSurface "Vehicle"
  = Err UnrecognizedControlSurfaceSettings.
Proof. reflexivity. Qed.

(** Settings from a coefficient file with four independent variables are
    refused before any table is read. *)
Example four_variables_in_file_refused :
  @readTabulatedAerodynamicCoefficientsFromFiles
    exampleCollaborators (fun _ _ _ => Ok bivariateSettings)
    [(0%Z, "fourVariables.dat")] []
  = Err (UnsupportedFileDimensionality 4).
Proof. reflexivity. Qed.

End FactoryExamples.

Module FrameKinematicsAlgebraFacts.
Import ephemerides FrameKinematicsSpec FrameKinematicsAlgebra FrameKinematicsFacts.
Local Open Scope R_scope.

Lemma matrix3_eq (M K : Matrix3 R) :
  m00 M = m00 K -> m01 M = m01 K -> m02 M = m02 K ->
  m10 M = m10 K -> m11 M = m11 K -> m12 M = m12 K ->
  m20 M = m20 K -> m21 M = m21 K -> m22 M = m22 K -> M = K.
Proof. destruct M, K; cbn [m00 m01 m02 m10 m11 m12 m20 m21 m22]; intros; subst; reflexivity. Qed.

Lemma mul_assoc (A B C : Matrix3 R) :
  Eigen.mul (Eigen.mul A B) C = Eigen.mul A (Eigen.mul B C).
Proof. destruct A, B, C. apply matrix3_eq; to_real_arithmetic; ring. Qed.

Lemma mul_identity_r (A : Matrix3 R) : Eigen.mul A identity = A.
Proof. destruct A. apply matrix3_eq; to_real_arithmetic; ring. Qed.

(** X1.  For every 3x3 matrix [M] and every vector [w], the transpose of
    [getDerivativeOfRotationMatrixToFrame M w] times [M] is [det M] times
    the cross-product matrix of [w]: no orthonormality is needed, only the
    determinant decides what comes back. *)
Theorem transposed_derivative_times_rotation (M : Matrix3 R) (w : Vector3 R) :
  Eigen.mul (Eigen.transpose (getDerivativeOfRotationMatrixToFrame M w)) M
  = scaleMatrix (determinant M) (linear_algebra.getCrossProductMatrix w).
Proof.
  destruct M, w. apply matrix3_eq; to_real_matrices; ring.
Qed.

(** X2.  For an orthonormal [M] ([M * M^T = 1]) the derivative [D] of
    [getDerivativeOfRotationMatrixToFrame M w] satisfies
    [D * M^T = skew(-M w)], so [D * M^T] is antisymmetric: the derivative
    is tangent to the rotations at [M]. *)
Theorem derivative_times_transpose_antisymmetric (M : Matrix3 R) (w : Vector3 R) :
  Eigen.mul M (Eigen.transpose M) = identity ->
  let D := getDerivativeOfRotationMatrixToFrame M w in
  Eigen.mul D (Eigen.transpose M)
  = linear_algebra.getCrossProductMatrix (Eigen.mulv (Eigen.mopp M) w)
  /\ Eigen.transpose (Eigen.mul D (Eigen.transpose M))
     = Eigen.mopp (Eigen.mul D (Eigen.transpose M)).
Proof.
  intros Horth; cbv zeta.
  assert (HD : Eigen.mul (getDerivativeOfRotationMatrixToFrame M w) (Eigen.transpose M)
               = linear_algebra.getCrossProductMatrix (Eigen.mulv (Eigen.mopp M) w)).
  { unfold getDerivativeOfRotationMatrixToFrame.
    now rewrite mul_assoc, Horth, mul_identity_r. }
  split; [exact HD|]. rewrite HD.
  destruct M, w. apply matrix3_eq; to_real_arithmetic; ring.
Qed.

Lemma derivative_times_transpose_antisymmetric_witness :
  let D := getDerivativeOfRotationMatrixToFrame quarterTurn (mkVector3 1 2 3) in
  Eigen.mul D (Eigen.transpose quarterTurn)
  = linear_algebra.getCrossProductMatrix
      (Eigen.mulv (Eigen.mopp quarterTurn) (mkVector3 1 2 3))
  /\ Eigen.transpose (Eigen.mul D (Eigen.transpose quarterTurn))
     = Eigen.mopp (Eigen.mul D (Eigen.transpose quarterTurn)).
Proof.
  apply (@derivative_times_transpose_antisymmetric quarterTurn (mkVector3 1 2 3)).
  apply matrix3_eq; to_real_matrices; ring.
Defined.

(** X3.  If the rotation to the target frame [M] has orthonormal columns
    ([M^T * M = 1]) and the rotation to the base frame, [M^T], changes at
    the rate [skew(w) * M^T], then
    [getRotationalVelocityVectorInBaseFrameFromMatrices] returns [w]:
    the entries (2,1), (0,2), (1,0) it reads invert the cross-product
    matrix. *)
Theorem velocity_of_rotating_frame (M : Matrix3 R) (w : Vector3 R) :
  Eigen.mul (Eigen.transpose M) M = identity ->
  getRotationalVelocityVectorInBaseFrameFromMatrices
    M (Eigen.mul (linear_algebra.getCrossProductMatrix w) (Eigen.transpose M))
  = w.
Proof.
  intros Horth. unfold getRotationalVelocityVectorInBaseFrameFromMatrices.
  rewrite mul_assoc, Horth, mul_identity_r.
  destruct w; reflexivity.
Qed.

Lemma velocity_of_rotating_frame_witness :
  getRotationalVelocityVectorInBaseFrameFromMatrices
    quarterTurn
    (Eigen.mul (linear_algebra.getCrossProductMatrix (mkVector3 1 2 3))
               (Eigen.transpose quarterTurn))
  = mkVector3 1 2 3.
Proof.
  apply (@velocity_of_rotating_frame quarterTurn (mkVector3 1 2 3)).
  apply matrix3_eq; to_real_matrices; ring.
Defined.

(** X4.  Both conversions are linear in their second argument: the
    derivative in the angular velocity, the angular velocity in the
    derivative.  In particular a zero angular velocity gives the zero
    derivative and back. *)
Theorem conversions_linear (M : Matrix3 R) (a : R) (u v : Vector3 R) (D E : Matrix3 R) :
  getDerivativeOfRotationMatrixToFrame M (addVector (scale a u) v)
  = addMatrix (scaleMatrix a (getDerivativeOfRotationMatrixToFrame M u))
              (getDerivativeOfRotationMatrixToFrame M v)
  /\ getRotationalVelocityVectorInBaseFrameFromMatrices M (addMatrix (scaleMatrix a D) E)
     = addVector (scale a (getRotationalVelocityVectorInBaseFrameFromMatrices M D))
                 (getRotationalVelocityVectorInBaseFrameFromMatrices M E).
Proof.
  destruct M, u, v, D, E. split.
  - apply matrix3_eq; to_real_matrices; ring.
  - apply vector3_eq; to_real_matrices; ring.
Qed.

End FrameKinematicsAlgebraFacts.

Module FrameKinematicsDoubleFacts.
Import ephemerides.
Local Open Scope float_scope.

Lemma mul_nan_l (a : double) : nan * a = nan.
Proof.
  rewrite <- (SF2Prim_Prim2SF (nan * a)), mul_spec.
  change (Prim2SF nan) with S754_nan.
  destruct (Prim2SF a); reflexivity.
Qed.

Lemma add_nan_l (a : double) : nan + a = nan.
Proof.
  rewrite <- (SF2Prim_Prim2SF (nan + a)), add_spec.
  change (Prim2SF nan) with S754_nan.
  destruct (Prim2SF a); reflexivity.
Qed.

(** X5.  In double arithmetic, for every rotation matrix the angular
    velocity that [getRotationalVelocityVectorInBaseFrameFromMatrices]
    extracts from the all-NaN derivative matrix (what the angle-based
    ephemeris returns as its derivative) has three NaN components: the
    placeholder never turns into a number. *)
Theorem velocity_of_nan_derivative (rotationToTargetFrame : Matrix3 double) :
  getRotationalVelocityVectorInBaseFrameFromMatrices
    rotationToTargetFrame (Eigen.Constant TUDAT_NAN)
  = mkVector3 TUDAT_NAN TUDAT_NAN TUDAT_NAN.
Proof.
  destruct rotationToTargetFrame.
  cbv [getRotationalVelocityVectorInBaseFrameFromMatrices Eigen.mul Eigen.Constant
       Eigen.dot3 m00 m01 m02 m10 m11 m12 m20 m21 m22
       sadd smul Scalar_double TUDAT_NAN].
  now rewrite !mul_nan_l, !add_nan_l.
Qed.

End FrameKinematicsDoubleFacts.

Module MultiArrayRoundTrips.
Import boost input_output MultiArraySpec MultiArrayFacts.

Lemma digits_add_multiple (extents : list nat) :
  forall q r, digits extents (q * extent_product extents + r) = digits extents r.
Proof.
  induction extents as [|n extents IH]; intros q r.
  - reflexivity.
  - rewrite !digits_cons, extent_product_cons. f_equal.
    + destruct (Nat.eq_dec (extent_product extents) 0) as [E|E].
      * rewrite E. reflexivity.
      * replace (q * (n * extent_product extents) + r)
          with (q * n * extent_product extents + r) by ring.
        rewrite Nat.div_add_l by exact E.
        rewrite Nat.add_comm, Nat.Div0.mod_add. reflexivity.
    + replace (q * (n * extent_product extents) + r)
        with (q * n * extent_product extents + r) by ring.
      apply IH.
Qed.

Lemma digits_weighted_sum (extents : list nat) :
  forall indices,
    length indices = length extents ->
    below indices extents = true ->
    digits extents (weighted_sum indices (strides_of extents)) = indices.
Proof.
  induction extents as [|n extents IH]; intros [|i indices] Hlen Hb; try discriminate.
  - reflexivity.
  - cbn [strides_of]. rewrite weighted_sum_cons, digits_cons.
    rewrite below_cons in Hb. apply andb_prop in Hb as [Hi Hb]. apply Nat.ltb_lt in Hi.
    injection Hlen as Hlen.
    pose proof (weighted_sum_below extents indices Hlen Hb) as Hlt.
    f_equal.
    + rewrite Nat.div_add_l by lia.
      rewrite (Nat.div_small _ _ Hlt), Nat.add_0_r. apply Nat.mod_small. exact Hi.
    + rewrite digits_add_multiple. apply IH; assumption.
Qed.

(** X6.  From an element to its index array and back: for a well-formed
    [N]-dimensional array and an element offset [p] below the number of
    elements, the index array computed by [getMultiArrayIndexArray] lies
    within the extents and addresses the element at offset [p]. *)
Theorem index_array_addresses_element {T : Type} (N : nat) (m : multi_array T) (p : nat) :
  well_formed N m ->
  p < num_elements m ->
  in_bounds m (getMultiArrayIndexArray N m p) = true /\
  offset m (getMultiArrayIndexArray N m p) = p.
Proof.
  intros [HN _] Hp. rewrite <- HN, getMultiArrayIndexArray_digits.
  unfold num_elements in Hp. split.
  - apply in_bounds_spec. split; [apply digits_length|].
    apply digits_below. lia.
  - unfold offset, strides.
    fold (weighted_sum (digits (shape m) p) (strides_of (shape m))).
    rewrite weighted_sum_digits. apply Nat.mod_small. exact Hp.
Qed.

(** X7.  From an index array to the element and back: for a well-formed
    array and an index array within the extents, [getMultiArrayIndexArray]
    at the offset of that element returns the index array. *)
Theorem index_array_of_offset {T : Type} (N : nat) (m : multi_array T) (indices : list nat) :
  well_formed N m ->
  in_bounds m indices = true ->
  getMultiArrayIndexArray N m (offset m indices) = indices.
Proof.
  intros [HN _] Hin. apply in_bounds_spec in Hin as [Hlen Hb].
  rewrite <- HN, getMultiArrayIndexArray_digits.
  unfold offset, strides.
  fold (weighted_sum indices (strides_of (shape m))).
  apply digits_weighted_sum; assumption.
Qed.

Lemma map_nth_seq {A B : Type} (f : A -> B) (l : list A) (default : A) :
  List.map (fun p => f (nth p l default)) (seq 0 (length l)) = List.map f l.
Proof.
  induction l as [|a l IH]; [reflexivity|].
  cbn [length seq List.map nth]. f_equal.
  rewrite <- seq_shift, map_map. exact IH.
Qed.

Lemma merged_data_components (dx dy dz : list double) (n : nat) :
  length dx = n -> length dy = n -> length dz = n ->
  List.map (@vx double) (merged_data dx dy dz n) = dx /\
  List.map (@vy double) (merged_data dx dy dz n) = dy /\
  List.map (@vz double) (merged_data dx dy dz n) = dz.
Proof.
  intros Hx Hy Hz. unfold merged_data. rewrite !map_map. cbn [vx vy vz].
  repeat split.
  - rewrite <- Hx. rewrite (map_nth_seq (fun a => a)). apply map_id.
  - rewrite <- Hy. rewrite (map_nth_seq (fun a => a)). apply map_id.
  - rewrite <- Hz. rewrite (map_nth_seq (fun a => a)). apply map_id.
Qed.

(** X8.  Splitting the merged table gives the three tables back: on
    well-formed tables of one shape, the x-, y- and z-components of the
    elements of the result of [mergeNDimensionalCoefficients], in storage
    order, are the elements of the first, second and third argument. *)
Theorem merged_components_are_inputs (N : nat) (xs ys zs : multi_array double) :
  well_formed N xs -> well_formed N ys -> well_formed N zs ->
  shape xs = shape ys -> shape xs = shape zs ->
  exists merged,
    mergeNDimensionalCoefficients N xs ys zs = Ok merged /\
    num_elements merged = num_elements xs /\
    List.map (@vx double) (data merged) = data xs /\
    List.map (@vy double) (data merged) = data ys /\
    List.map (@vz double) (data merged) = data zs.
Proof.
  intros Hx Hy Hz Exy Exz.
  eexists; split; [apply merge_equal_shapes; assumption|].
  split; [reflexivity|]. cbn [data].
  apply merged_data_components.
  - apply Hx.
  - destruct Hy as [_ Hy]. unfold num_elements in *. now rewrite Exy.
  - destruct Hz as [_ Hz]. unfold num_elements in *. now rewrite Exz.
Qed.

Lemma index_array_addresses_element_witness :
  in_bounds exampleX (getMultiArrayIndexArray 2 exampleX 4) = true /\
  offset exampleX (getMultiArrayIndexArray 2 exampleX 4) = 4.
Proof.
  apply (@index_array_addresses_element double 2 exampleX 4).
  - split; reflexivity.
  - cbv. lia.
Defined.

Lemma index_array_of_offset_witness :
  getMultiArrayIndexArray 2 exampleX (offset exampleX [1; 2]) = [1; 2].
Proof.
  apply (@index_array_of_offset double 2 exampleX [1; 2]).
  - split; reflexivity.
  - reflexivity.
Defined.

Lemma merged_components_are_inputs_witness :
  exists merged,
    mergeNDimensionalCoefficients 2 exampleX exampleY exampleZ = Ok merged /\
    num_elements merged = num_elements exampleX /\
    List.map (@vx double) (data merged) = data exampleX /\
    List.map (@vy double) (data merged) = data exampleY /\
    List.map (@vz double) (data merged) = data exampleZ.
Proof.
  apply (@merged_components_are_inputs 2 exampleX exampleY exampleZ);
    solve [split; reflexivity | reflexivity].
Defined.

End MultiArrayRoundTrips.

Module ReaderTableFacts.
Import boost input_output MultiArraySpec MultiArrayFacts MultiArrayRoundTrips.
Import ReaderSpec ReaderFacts ReaderTables.

Lemma find_none_not_in {V : Type} (key : Z) (m : std_map.t V) :
  ~ In key (List.map fst m) -> std_map.find key m = None.
Proof.
  induction m as [|[k v] m IH]; cbn; [reflexivity|].
  intros Hnot. destruct (Z.eqb_spec key k) as [->|Hneq].
  - exfalso. apply Hnot. now left.
  - apply IH. intros Hin. apply Hnot. now right.
Qed.

Section Reading.
Variable readFile : nat -> string -> result (multi_array double * list (list double)).
Variable N : nat.

Local Abbreviation readCoefficientFiles := (readCoefficientFiles readFile N).
Local Abbreviation readAerodynamicCoefficients := (readAerodynamicCoefficients readFile N).
Local Abbreviation reader_well_formed := (reader_well_formed readFile N).
Local Abbreviation consistent_with := (consistent_with readFile N).
Local Abbreviation tables_of_shape := (tables_of_shape N).
Local Abbreviation table_of := (table_of readFile N).
Local Abbreviation axis_elements := (axis_elements readFile N).
Local Abbreviation reads_consistently := (reads_consistently readFile N).

(** The map of tables after the loop: per key, the table of the file that
    the remaining file names give for it, or the table stored before. *)
Lemma readCoefficientFiles_tables (iv0 : list (list double)) (rest : std_map.t string) :
  reader_well_formed ->
  distinct_keys rest ->
  forall raw : std_map.t (multi_array double),
    raw <> [] ->
    tables_of_shape (List.map (@length double) iv0) raw ->
    consistent_with iv0 rest ->
    exists raw',
      readCoefficientFiles rest (raw, iv0) = Ok (raw', iv0) /\
      raw' <> [] /\
      tables_of_shape (List.map (@length double) iv0) raw' /\
      forall key,
        std_map.find key raw'
        = match std_map.find key rest with
          | Some _ => table_of rest key
          | None => std_map.find key raw
          end.
Proof.
  intros Hwf.
  induction rest as [|[k1 f1] rest IH]; intros Hkeys raw Hraw Htab Hcons.
  - exists raw. cbn. auto.
  - cbn [input_output.readCoefficientFiles]. unfold readCoefficientFile; cbn [fst snd].
    destruct (Hcons k1 f1 (or_introl eq_refl)) as (a1 & iv1 & Hf1 & Hcmp1).
    rewrite Hf1; cbn [bind fst snd]. rewrite (size_not_empty Hraw), Hcmp1; cbn [bind].
    unfold distinct_keys in Hkeys. cbn [List.map fst] in Hkeys.
    apply NoDup_cons_iff in Hkeys as [Hfresh Hkeys].
    destruct (IH Hkeys (std_map.insert k1 (copyMultiArray a1) raw))
      as (raw' & Hrun & Hne & Htab' & Hfind).
    + apply insert_not_empty.
    + intros key a'. rewrite find_insert.
      destruct (key =? k1)%Z; [|apply Htab].
      intros [= <-]. destruct (Hwf _ _ _ Hf1) as [Hwf1 Hshape1].
      split; [exact Hwf1|].
      unfold copyMultiArray. rewrite Hshape1.
      symmetry; now apply compareIndependentVariables_lengths.
    + intros k' f' Hin'. apply (Hcons k' f'). now right.
    + exists raw'.
      split; [exact Hrun|]. split; [exact Hne|]. split; [exact Htab'|].
      intros key. rewrite Hfind. unfold ReaderTables.table_of.
      cbn [std_map.find]. rewrite find_insert.
      destruct (Z.eqb_spec key k1) as [->|Hneq].
      * rewrite (find_none_not_in _ _ Hfresh), Hf1. reflexivity.
      * reflexivity.
Qed.

Lemma coefficientArrayForAxis_elements
      (extents : list nat) (raw : std_map.t (multi_array double))
      (firstMultiArray : multi_array double) (i : Z) :
  tables_of_shape extents raw ->
  well_formed N firstMultiArray -> shape firstMultiArray = extents ->
  exists c,
    coefficientArrayForAxis raw firstMultiArray i = Ok c /\
    well_formed N c /\ shape c = extents /\
    data c = match std_map.find i raw with
             | Some a => data a
             | None => repeat PrimFloat.zero (extent_product extents)
             end.
Proof.
  intros Htab Hfirst Hshape.
  unfold coefficientArrayForAxis, std_map.count, std_map.at_.
  destruct (std_map.find i raw) as [a|] eqn:Hfind; cbn [Nat.eqb negb bind].
  - exists (copyMultiArray a). destruct (Htab _ _ Hfind) as [Hwf Hs].
    split; [reflexivity|]. split; [exact Hwf|]. split; [exact Hs|]. reflexivity.
  - unfold num_dimensions. rewrite firstn_all, Hshape.
    exists (resized_and_filled extents PrimFloat.zero).
    unfold resized_and_filled, well_formed, num_dimensions, num_elements; cbn.
    repeat split.
    + rewrite <- Hshape. apply Hfirst.
    + now rewrite repeat_length.
Qed.

(** The result of a successful call, in full. *)
Lemma readAerodynamicCoefficients_result
      (k0 : Z) (f0 : string) (rest : std_map.t string)
      (a0 : multi_array double) (iv0 : list (list double)) :
  reader_well_formed ->
  distinct_keys ((k0, f0) :: rest) ->
  readFile N f0 = Ok (a0, iv0) ->
  consistent_with iv0 rest ->
  let fileNames := (k0, f0) :: rest in
  let n := num_elements a0 in
  readAerodynamicCoefficients fileNames
  = Ok (mkMultiArray (shape a0)
          (merged_data (axis_elements fileNames n 0%Z) (axis_elements fileNames n 1%Z)
                       (axis_elements fileNames n 2%Z) n),
        iv0)
  /\ length (axis_elements fileNames n 0%Z) = n
  /\ length (axis_elements fileNames n 1%Z) = n
  /\ length (axis_elements fileNames n 2%Z) = n.
Proof.
  intros Hwf Hkeys Hf0 Hcons fileNames n.
  destruct (Hwf _ _ _ Hf0) as [Hwf0 Hshape0].
  unfold distinct_keys in Hkeys. cbn [List.map fst] in Hkeys.
  apply NoDup_cons_iff in Hkeys as [Hfresh Hkeys].
  unfold input_output.readAerodynamicCoefficients. unfold fileNames at 1.
  cbn [input_output.readCoefficientFiles]. unfold readCoefficientFile; cbn [fst snd].
  rewrite Hf0; cbn [bind fst snd std_map.size length Nat.eqb].
  destruct (@readCoefficientFiles_tables iv0 rest Hwf Hkeys
              (std_map.insert k0 (copyMultiArray a0) []))
    as (raw & Hrun & Hne & Htab & Hfind).
  { apply insert_not_empty. }
  { intros key a'. rewrite find_insert.
    destruct (key =? k0)%Z; [|discriminate].
    intros [= <-]. now split. }
  { exact Hcons. }
  rewrite Hrun; cbn [bind fst snd]. rewrite (size_not_empty Hne).
  destruct raw as [|[kf first] raw]; [congruence|].
  cbn [std_map.begin_second bind].
  set (rawAll := (kf, first) :: raw) in *.
  assert (Hfirst : well_formed N first /\ shape first = List.map (@length double) iv0).
  { apply (Htab kf). unfold rawAll; cbn. now rewrite Z.eqb_refl. }
  destruct Hfirst as [Hfirstwf Hfirstshape].
  assert (Haxis : forall i,
             match std_map.find i rawAll with
             | Some a => data a
             | None => repeat PrimFloat.zero (extent_product (List.map (@length double) iv0))
             end = axis_elements fileNames n i).
  { intros i. rewrite Hfind.
    assert (En : extent_product (List.map (@length double) iv0) = n)
      by (unfold n, num_elements; now rewrite Hshape0).
    rewrite En.
    unfold ReaderTables.axis_elements, ReaderTables.table_of, fileNames.
    cbn [std_map.find]. rewrite find_insert.
    destruct (Z.eqb_spec i k0) as [->|Hneq].
    - rewrite (find_none_not_in _ _ Hfresh), Hf0. reflexivity.
    - cbn [std_map.find].
      destruct (std_map.find i rest) as [f|] eqn:Hfi; reflexivity. }
  destruct (@coefficientArrayForAxis_elements _ rawAll first 0%Z Htab Hfirstwf Hfirstshape)
    as (c0 & -> & Hc0 & Hs0 & Hd0).
  destruct (@coefficientArrayForAxis_elements _ rawAll first 1%Z Htab Hfirstwf Hfirstshape)
    as (c1 & -> & Hc1 & Hs1 & Hd1).
  destruct (@coefficientArrayForAxis_elements _ rawAll first 2%Z Htab Hfirstwf Hfirstshape)
    as (c2 & -> & Hc2 & Hs2 & Hd2).
  cbn [bind].
  rewrite (@merge_equal_shapes N c0 c1 c2) by congruence.
  cbn [bind].
  rewrite Haxis in Hd0, Hd1, Hd2.
  assert (Hn : num_elements c0 = n)
    by (unfold n, num_elements; now rewrite Hs0, Hshape0).
  rewrite Hd0, Hd1, Hd2, Hs0, Hn, <- Hshape0.
  split; [reflexivity|].
  rewrite <- Hd0, <- Hd1, <- Hd2, <- Hn.
  destruct Hc0 as [_ Hl0], Hc1 as [_ Hl1], Hc2 as [_ Hl2].
  unfold num_elements in *. rewrite Hl0, Hl1, Hl2, Hs0, Hs1, Hs2. auto.
Qed.

(** X9.  On a map without repeated keys whose files read consistently,
    every axis 0, 1 or 2 that has an entry contributes its file's table:
    that component of the elements of the merged table, in storage order,
    is the sequence of elements of the table read from that file. *)
Theorem readAerodynamicCoefficients_present_axes
        (k0 : Z) (f0 : string) (rest : std_map.t string)
        (a0 : multi_array double) (iv0 : list (list double))
        (i : nat) (f : string) (a : multi_array double) (iv : list (list double)) :
  reader_well_formed ->
  distinct_keys ((k0, f0) :: rest) ->
  readFile N f0 = Ok (a0, iv0) ->
  consistent_with iv0 rest ->
  i < 3 ->
  std_map.find (Z.of_nat i) ((k0, f0) :: rest) = Some f ->
  readFile N f = Ok (a, iv) ->
  exists merged,
    readAerodynamicCoefficients ((k0, f0) :: rest) = Ok (merged, iv0) /\
    shape merged = shape a0 /\
    List.map (fun v => Eigen.coeff v i) (data merged) = data a.
Proof.
  intros Hwf Hkeys Hf0 Hcons Hi Hfind Hf.
  destruct (@readAerodynamicCoefficients_result k0 f0 rest a0 iv0 Hwf Hkeys Hf0 Hcons)
    as (Hread & Hl0 & Hl1 & Hl2).
  cbv zeta in *.
  eexists; split; [exact Hread|]. split; [reflexivity|]. cbn [data].
  destruct (@merged_data_components _ _ _ _ Hl0 Hl1 Hl2) as (Hx & Hy & Hz).
  assert (Ha : axis_elements ((k0, f0) :: rest) (num_elements a0) (Z.of_nat i) = data a).
  { unfold ReaderTables.axis_elements, ReaderTables.table_of. now rewrite Hfind, Hf. }
  destruct i as [|[|[|i]]]; try lia; cbn [Eigen.coeff]; cbn [Z.of_nat Pos.of_succ_nat Pos.succ] in Ha.
  - change (fun v : Vector3 double => vx v) with (@vx double). now rewrite Hx.
  - change (fun v : Vector3 double => vy v) with (@vy double). now rewrite Hy.
  - change (fun v : Vector3 double => vz v) with (@vz double). now rewrite Hz.
Qed.

(** X10.  Entries under keys other than 0, 1 and 2 are read and checked,
    and their tables do not enter the result: on a map none of whose keys
    is 0, 1 or 2, every element of the merged table is the zero vector;
    shape and breakpoints are those of the first file. *)
Theorem readAerodynamicCoefficients_other_keys_only
        (k0 : Z) (f0 : string) (rest : std_map.t string)
        (a0 : multi_array double) (iv0 : list (list double)) :
  reader_well_formed ->
  distinct_keys ((k0, f0) :: rest) ->
  readFile N f0 = Ok (a0, iv0) ->
  consistent_with iv0 rest ->
  (forall key, In key (List.map fst ((k0, f0) :: rest)) -> (key < 0 \/ 2 < key)%Z) ->
  readAerodynamicCoefficients ((k0, f0) :: rest)
  = Ok (mkMultiArray (shape a0)
          (repeat (mkVector3 PrimFloat.zero PrimFloat.zero PrimFloat.zero)
                  (num_elements a0)),
        iv0).
Proof.
  intros Hwf Hkeys Hf0 Hcons Hother.
  destruct (@readAerodynamicCoefficients_result k0 f0 rest a0 iv0 Hwf Hkeys Hf0 Hcons)
    as (Hread & _).
  cbv zeta in Hread. rewrite Hread. f_equal. f_equal. f_equal.
  assert (Hzero : forall key, (0 <= key <= 2)%Z ->
             axis_elements ((k0, f0) :: rest) (num_elements a0) key
             = repeat PrimFloat.zero (num_elements a0)).
  { intros key Hkey. unfold ReaderTables.axis_elements, ReaderTables.table_of.
    rewrite find_none_not_in; [reflexivity|].
    intros Hin. specialize (Hother key Hin). lia. }
  rewrite !Hzero by lia. unfold merged_data.
  rewrite (map_ext_in _ (fun _ => mkVector3 PrimFloat.zero PrimFloat.zero PrimFloat.zero)).
  - now rewrite map_const, length_seq.
  - intros p Hp. apply in_seq in Hp. now rewrite !nth_repeat_below by lia.
Qed.

(** X11.  A file that cannot be read fails the call with the reader's
    error, when the files before it in the map read consistently: no
    table is returned, and the later files are not opened. *)
Theorem readAerodynamicCoefficients_unreadable
        (before after : std_map.t string) (k : Z) (f : string) (e : error) :
  reads_consistently before ->
  readFile N f = Err e ->
  readAerodynamicCoefficients (before ++ (k, f) :: after) = Err e.
Proof.
  intros Hbefore Hf.
  unfold input_output.readAerodynamicCoefficients.
  assert (Hloop : forall files raw iv0,
             raw <> [] -> consistent_with iv0 files ->
             readCoefficientFiles (files ++ (k, f) :: after) (raw, iv0) = Err e).
  { induction files as [|[k1 f1] files IH]; intros raw iv0 Hraw Hcons;
      cbn [app input_output.readCoefficientFiles]; unfold readCoefficientFile;
      cbn [fst snd].
    - rewrite Hf. reflexivity.
    - destruct (Hcons k1 f1 (or_introl eq_refl)) as (a1 & iv1 & Hf1 & Hcmp1).
      rewrite Hf1; cbn [bind fst snd]. rewrite (size_not_empty Hraw), Hcmp1; cbn [bind].
      apply IH; [apply insert_not_empty|].
      intros k' f' Hin'. apply (Hcons k' f'). now right. }
  destruct before as [|[k0 f0] rest].
  - cbn [app input_output.readCoefficientFiles]. unfold readCoefficientFile; cbn [fst snd].
    rewrite Hf. reflexivity.
  - destruct Hbefore as (a0 & iv0 & Hf0 & Hcons).
    cbn [app input_output.readCoefficientFiles]. unfold readCoefficientFile; cbn [fst snd].
    rewrite Hf0; cbn [bind fst snd std_map.size length Nat.eqb].
    rewrite Hloop; [reflexivity | apply insert_not_empty | exact Hcons].
Qed.

End Reading.
End ReaderTableFacts.

Module ReaderTableExamples.
Import boost input_output MultiArraySpec ReaderSpec ReaderData ReaderTables.
Import MultiArrayFacts ReaderFacts ReaderExamples ReaderTableFacts.
Local Open Scope string_scope.

Lemma readAerodynamicCoefficients_present_axes_witness :
  exists merged,
    readAerodynamicCoefficients exampleReader 2 [(0%Z, "Cx.dat"); (1%Z, "Cy.dat")]
    = Ok (merged, breakpointsA) /\
    shape merged = shape exampleX /\
    List.map (fun v => Eigen.coeff v 1) (data merged) = data exampleY.
Proof.
  apply (@readAerodynamicCoefficients_present_axes
           exampleReader 2 0%Z "Cx.dat" [(1%Z, "Cy.dat")] exampleX breakpointsA
           1 "Cy.dat" exampleY breakpointsA).
  - exact exampleReader_well_formed.
  - unfold distinct_keys; cbn. repeat constructor; cbn; intuition discriminate.
  - reflexivity.
  - intros k f [Hin|[]]; injection Hin as <- <-.
    exists exampleY, breakpointsA. split; reflexivity.
  - lia.
  - reflexivity.
  - reflexivity.
Defined.

Lemma readAerodynamicCoefficients_other_keys_only_witness :
  readAerodynamicCoefficients exampleReader 2 [(3%Z, "Cx.dat"); (4%Z, "Cy.dat")]
  = Ok (mkMultiArray (shape exampleX)
          (repeat (mkVector3 PrimFloat.zero PrimFloat.zero PrimFloat.zero)
                  (num_elements exampleX)),
        breakpointsA).
Proof.
  apply (@readAerodynamicCoefficients_other_keys_only
           exampleReader 2 3%Z "Cx.dat" [(4%Z, "Cy.dat")] exampleX breakpointsA).
  - exact exampleReader_well_formed.
  - unfold distinct_keys; cbn. repeat constructor; cbn; intuition discriminate.
  - reflexivity.
  - intros k f [Hin|[]]; injection Hin as <- <-.
    exists exampleY, breakpointsA. split; reflexivity.
  - cbn. intros key [<-|[<-|[]]]; lia.
Defined.

Lemma readAerodynamicCoefficients_unreadable_witness :
  readAerodynamicCoefficients exampleReader 2
    ([(0%Z, "Cx.dat")] ++ (1%Z, "missing.dat") :: [(2%Z, "Cz.dat")])%list
  = Err (FileNotReadable "missing.dat").
Proof.
  apply (@readAerodynamicCoefficients_unreadable
           exampleReader 2 [(0%Z, "Cx.dat")] [(2%Z, "Cz.dat")] 1%Z "missing.dat").
  - exists exampleX, breakpointsA. split; [reflexivity|]. intros k f [].
  - reflexivity.
Defined.

End ReaderTableExamples.

Module EphemerisCompositionFacts.
Import reference_frames aerodynamic_angle_ephemeris.

Section Facts.
Context {collaborators : Collaborators}.

(** X13.  Registering sideslip and bank angle functions twice: after
    [addSideslipBankAngleFunctions g1] and then [g2], the registered
    function returns the sideslip and bank angles of [g2], and the angle of
    attack that was there before the first registration (0.0 if no function
    was registered). *)
Theorem addSideslipBankAngleFunctions_twice
        (g1 g2 : double -> Vector2 double) (this : AerodynamicAngleRotationalEphemeris) :
  exists f',
    aerodynamicAngleFunction_
      (addSideslipBankAngleFunctions g2 (addSideslipBankAngleFunctions g1 this)) = Some f' /\
    forall t,
      f' t = mkVector3
               (match aerodynamicAngleFunction_ this with
                | Some f => Eigen.coeff (f t) 0
                | None => PrimFloat.zero
                end)
               (v2_0 (g2 t)) (v2_1 (g2 t)).
Proof.
  unfold addSideslipBankAngleFunctions.
  destruct (aerodynamicAngleFunction_ this) as [f|];
    cbn [aerodynamicAngleFunction_ withAerodynamicAngleFunction];
    eexists; split; reflexivity.
Qed.

End Facts.
End EphemerisCompositionFacts.

Module FactoryBuildFacts.
Import boost simulation_setup FactorySpec FactoryFacts.

Lemma traverse_results {A B : Type} (f : A -> result B) (l : list A) (bs : list B) :
  traverse f l = Ok bs -> Forall2 (fun a b => f a = Ok b) l bs.
Proof.
  revert bs; induction l as [|a l IH]; intros bs; cbn.
  - intros [= <-]. constructor.
  - destruct (f a) as [b|] eqn:Hfa; [|discriminate].
    destruct (traverse f l) as [bs'|]; [|discriminate].
    intros [= <-]. constructor; auto.
Qed.

Lemma traverse_first_error {A B : Type} (f : A -> result B)
      (before after : list A) (a : A) (e : error) :
  Forall (fun a => is_ok (f a) = true) before ->
  f a = Err e ->
  traverse f (before ++ a :: after) = Err e.
Proof.
  induction 1 as [|a' before Ha _ IH]; intros Hfa; cbn.
  - now rewrite Hfa.
  - destruct (f a'); [|discriminate]. now rewrite IH.
Qed.

Section Facts.
Context {collaborators : Collaborators}.

(** The steps of the loop over the control surface settings. *)
Lemma control_surface_step_ok
      (body : string)
      (entry : string * ControlSurfaceIncrementAerodynamicCoefficientSettings) :
  is_ok (createControlSurfaceIncrementAerodynamicCoefficientInterface (snd entry) body)
  = is_ok (bind (createControlSurfaceIncrementAerodynamicCoefficientInterface
                   (snd entry) body)
                (fun increment => Ok (fst entry, increment))).
Proof.
  destruct (createControlSurfaceIncrementAerodynamicCoefficientInterface (snd entry) body);
    reflexivity.
Qed.

(** X14.  A constant descriptor whose control surfaces build gives an
    interface whose force and moment coefficients are the two constants of
    the descriptor at every list of independent variables, and which has
    no independent variables, whatever names the descriptor declares. *)
Theorem constant_interface_is_constant
        (coefficientSettings : AerodynamicCoefficientSettings) (body : string)
        (constantForceCoefficient constantMomentCoefficient : Vector3 double) :
  aerodynamicCoefficientType coefficientSettings = constant_aerodynamic_coefficients ->
  payload coefficientSettings
  = ConstantSettings constantForceCoefficient constantMomentCoefficient ->
  controlSurfacesBuild coefficientSettings body ->
  exists interface,
    createAerodynamicCoefficientInterface coefficientSettings body = Ok interface /\
    interfaceIndependentVariableNames interface = [] /\
    forall independentVariables,
      forceCoefficientFunction interface independentVariables = constantForceCoefficient /\
      momentCoefficientFunction interface independentVariables = constantMomentCoefficient.
Proof.
  intros Htype Hpayload Hsurfaces.
  unfold createAerodynamicCoefficientInterface, createBaselineCoefficientInterface.
  rewrite Htype, Hpayload. cbn [bind].
  destruct (negb (length (controlSurfaceSettings coefficientSettings) =? 0)).
  - destruct (@traverse_all_ok _ _
                (fun settingIterator =>
                   bind (createControlSurfaceIncrementAerodynamicCoefficientInterface
                           (snd settingIterator) body)
                        (fun increment => Ok (fst settingIterator, increment)))
                (controlSurfaceSettings coefficientSettings))
      as [increments ->].
    + eapply Forall_impl; [|exact Hsurfaces].
      intros entry Hentry. now rewrite <- control_surface_step_ok.
    + cbn [bind]. eexists; split; [reflexivity|]. split; [reflexivity|].
      intros independentVariables. split; reflexivity.
  - eexists; split; [reflexivity|]. split; [reflexivity|].
    intros independentVariables. split; reflexivity.
Qed.

(** X15.  For a constant descriptor and for a tabulated descriptor with one
    independent variable, the lateral reference length of the interface
    built is the reference length of the descriptor; the lateral
    reference length of the descriptor is not used. *)
Theorem lateral_reference_length_is_reference_length
        (coefficientSettings : AerodynamicCoefficientSettings) (body : string)
        (interface : AerodynamicCoefficientInterface) :
  createAerodynamicCoefficientInterface coefficientSettings body = Ok interface ->
  aerodynamicCoefficientType coefficientSettings = constant_aerodynamic_coefficients \/
  (aerodynamicCoefficientType coefficientSettings = tabulated_coefficients /\
   length (independentVariableNames coefficientSettings) = 1) ->
  interfaceLateralReferenceLength interface = referenceLength coefficientSettings /\
  interfaceReferenceLength interface = referenceLength coefficientSettings.
Proof.
  intros Hbuild Hkind.
  unfold createAerodynamicCoefficientInterface in Hbuild.
  assert (Hbase : exists baseline,
             createBaselineCoefficientInterface coefficientSettings body = Ok baseline /\
             interfaceLateralReferenceLength baseline = referenceLength coefficientSettings /\
             interfaceReferenceLength baseline = referenceLength coefficientSettings).
  { unfold createBaselineCoefficientInterface in *.
    destruct Hkind as [Htype|[Htype Hone]]; rewrite Htype in *.
    - destruct (payload coefficientSettings); try discriminate.
      eexists; repeat split.
    - rewrite Hone in *. cbn [Z.of_nat Pos.of_succ_nat] in *.
      unfold createUnivariateTabulatedCoefficientAerodynamicCoefficientInterface in *.
      destruct (payload coefficientSettings); try discriminate.
      eexists; repeat split. }
  destruct Hbase as (baseline & Hbaseline & Hlateral & Hlength).
  rewrite Hbaseline in Hbuild. cbn [bind] in Hbuild.
  destruct (negb (length (controlSurfaceSettings coefficientSettings) =? 0)).
  - destruct (traverse _ (controlSurfaceSettings coefficientSettings)); [|discriminate].
    cbn [bind] in Hbuild. injection Hbuild as <-. now split.
  - injection Hbuild as <-. now split.
Qed.

(** X16.  The order of the errors: a descriptor whose baseline interface
    cannot be built fails with the error of the baseline, whatever its
    control surfaces are; with a baseline that builds, the build fails
    with the error of the first control surface, in the order of the map,
    that does not build. *)
Theorem errors_in_order
        (coefficientSettings : AerodynamicCoefficientSettings) (body : string) (e : error) :
  (createBaselineCoefficientInterface coefficientSettings body = Err e ->
   createAerodynamicCoefficientInterface coefficientSettings body = Err e)
  /\
  (forall before after name surface,
      is_ok (createBaselineCoefficientInterface coefficientSettings body) = true ->
      controlSurfaceSettings coefficientSettings = before ++ (name, surface) :: after ->
      Forall (fun entry =>
                is_ok (createControlSurfaceIncrementAerodynamicCoefficientInterface
                         (snd entry) body) = true) before ->
      createControlSurfaceIncrementAerodynamicCoefficientInterface surface body = Err e ->
      createAerodynamicCoefficientInterface coefficientSettings body = Err e).
Proof.
  unfold createAerodynamicCoefficientInterface. split.
  - intros ->. reflexivity.
  - intros before after name surface Hbase Hsurfaces Hbefore Hsurface.
    destruct (createBaselineCoefficientInterface coefficientSettings body);
      [|discriminate].
    cbn [bind]. rewrite Hsurfaces.
    assert (Hlen : negb (length (before ++ (name, surface) :: after) =? 0) = true).
    { rewrite length_app. cbn [length]. rewrite Nat.add_succ_r. reflexivity. }
    rewrite Hlen.
    rewrite (@traverse_first_error _ _ _ before after (name, surface) e).
    + reflexivity.
    + eapply Forall_impl; [|exact Hbefore].
      intros entry Hentry. now rewrite <- control_surface_step_ok.
    + cbn [snd]. now rewrite Hsurface.
Qed.

(** X17.  An interface built for a descriptor with control surfaces has
    one increment interface per control surface of the descriptor, under
    the same name and in the same order, and each is what
    [createControlSurfaceIncrementAerodynamicCoefficientInterface] builds
    for the descriptor of that control surface. *)
Theorem control_surface_increments_by_name
        (coefficientSettings : AerodynamicCoefficientSettings) (body : string)
        (interface : AerodynamicCoefficientInterface) :
  createAerodynamicCoefficientInterface coefficientSettings body = Ok interface ->
  controlSurfaceSettings coefficientSettings <> [] ->
  List.map fst (controlSurfaceIncrementInterfaces interface)
  = List.map fst (controlSurfaceSettings coefficientSettings)
  /\
  Forall2 (fun entry increment =>
             createControlSurfaceIncrementAerodynamicCoefficientInterface (snd entry) body
             = Ok (snd increment))
          (controlSurfaceSettings coefficientSettings)
          (controlSurfaceIncrementInterfaces interface).
Proof.
  intros Hbuild Hsome.
  unfold createAerodynamicCoefficientInterface in Hbuild.
  destruct (createBaselineCoefficientInterface coefficientSettings body) as [baseline|];
    [|discriminate].
  cbn [bind] in Hbuild.
  destruct (controlSurfaceSettings coefficientSettings) as [|first others] eqn:Hsurfaces;
    [congruence|].
  cbn [length Nat.eqb negb] in Hbuild.
  destruct (traverse _ (first :: others)) as [increments|] eqn:Htraverse; [|discriminate].
  cbn [bind] in Hbuild. injection Hbuild as <-.
  cbn [controlSurfaceIncrementInterfaces setControlSurfaceIncrements].
  apply traverse_results in Htraverse.
  clear Hsurfaces Hsome. induction Htraverse as [|entry increment l l' Hstep _ IH].
  - split; constructor.
  - destruct (createControlSurfaceIncrementAerodynamicCoefficientInterface
                (snd entry) body) as [built|] eqn:Hbuilt; [|discriminate].
    cbn [bind] in Hstep. injection Hstep as <-.
    destruct IH as [IHnames IHbuilt]. split.
    + cbn [List.map fst]. now rewrite IHnames.
    + constructor; [exact Hbuilt | exact IHbuilt].
Qed.

(** X18.  Control surface descriptors are refused when they are not tagged
    as tabulated, and when they are and declare a number of independent
    variables outside 1..6. *)
Theorem control_surface_descriptor_refused
        (coefficientSettings : ControlSurfaceIncrementAerodynamicCoefficientSettings)
        (body : string) :
  (cs_aerodynamicCoefficientType coefficientSettings <> tabulated_coefficients ->
   createControlSurfaceIncrementAerodynamicCoefficientInterface coefficientSettings body
   = Err UnrecognizedControlSurfaceSettings)
  /\
  (cs_aerodynamicCoefficientType coefficientSettings = tabulated_coefficients ->
   let N := length (cs_independentVariableNames coefficientSettings) in
   N < 1 \/ 6 < N ->
   createControlSurfaceIncrementAerodynamicCoefficientInterface coefficientSettings body
   = Err (UnsupportedDimensionality (Z.of_nat N))).
Proof.
  split.
  - intros Htype. unfold createControlSurfaceIncrementAerodynamicCoefficientInterface.
    destruct (cs_aerodynamicCoefficientType coefficientSettings); congruence.
  - intros Htype N Hout. unfold createControlSurfaceIncrementAerodynamicCoefficientInterface.
    rewrite Htype. apply dimension_switch_default. lia.
Qed.

(** X19.  Settings from files: the number of independent variables is
    taken from the force coefficient file of axis 0 alone.  Without an
    entry for axis 0 the call fails, whatever other files are given; and a
    file with fewer than 1 or more than 3 independent variables is
    refused.  In neither case is a table read. *)
Theorem settings_from_files_refused
        (readGivenSize : nat -> std_map.t string -> std_map.t string ->
                         result AerodynamicCoefficientSettings)
        (forceCoefficientFiles momentCoefficientFiles : std_map.t string) :
  (std_map.find 0%Z forceCoefficientFiles = None ->
   readTabulatedAerodynamicCoefficientsFromFiles
     readGivenSize forceCoefficientFiles momentCoefficientFiles
   = Err IndexOutOfRange)
  /\
  (forall firstFile numberOfIndependentVariables,
      std_map.find 0%Z forceCoefficientFiles = Some firstFile ->
      getNumberOfIndependentVariablesInCoefficientFile firstFile
      = Ok numberOfIndependentVariables ->
      (numberOfIndependentVariables < 1 \/ 3 < numberOfIndependentVariables)%Z ->
      readTabulatedAerodynamicCoefficientsFromFiles
        readGivenSize forceCoefficientFiles momentCoefficientFiles
      = Err (UnsupportedFileDimensionality numberOfIndependentVariables)).
Proof.
  unfold readTabulatedAerodynamicCoefficientsFromFiles, std_map.at_. split.
  - intros ->. reflexivity.
  - intros firstFile n Hfile Hnumber Hout.
    rewrite Hfile; cbn [bind]. rewrite Hnumber; cbn [bind].
    destruct (Z.eqb_spec n 1); [lia|].
    destruct (Z.eqb_spec n 2); [lia|].
    destruct (Z.eqb_spec n 3); [lia|].
    reflexivity.
Qed.

End Facts.
End FactoryBuildFacts.

Module FactoryBuildExamples.
Import boost simulation_setup FactorySpec FactoryData FactoryBuildData.
Import FactoryFacts FactoryBuildFacts.
Local Open Scope float_scope.
Local Open Scope string_scope.

Lemma constant_interface_is_constant_witness :
  exists interface,
    createAerodynamicCoefficientInterface constantSettings "Vehicle" = Ok interface /\
    interfaceIndependentVariableNames interface = [] /\
    forall independentVariables,
      forceCoefficientFunction interface independentVariables = mkVector3 1 2 3 /\
      momentCoefficientFunction interface independentVariables = mkVector3 4 5 6.
Proof.
  apply (@constant_interface_is_constant
           exampleCollaborators constantSettings "Vehicle"
           (mkVector3 1 2 3) (mkVector3 4 5 6)).
  - reflexivity.
  - reflexivity.
  - constructor.
Defined.

Lemma lateral_reference_length_is_reference_length_witness :
  interfaceLateralReferenceLength univariateInterface = referenceLength univariateSettings /\
  interfaceReferenceLength univariateInterface = referenceLength univariateSettings.
Proof.
  apply (@lateral_reference_length_is_reference_length
           exampleCollaborators univariateSettings "Vehicle" univariateInterface).
  - reflexivity.
  - right. split; reflexivity.
Defined.

(** The lateral reference length of the descriptor was 4. *)
Example lateral_reference_length_of_settings_unused :
  lateralReferenceLength univariateSettings = 4 /\
  interfaceLateralReferenceLength univariateInterface = 2.
Proof. split; reflexivity. Qed.

Lemma errors_in_order_witness :
  createAerodynamicCoefficientInterface settingsWithAileronAndElevator "Vehicle"
  = Err UnrecognizedControlSurfaceSettings.
Proof.
  apply (proj2 (@errors_in_order exampleCollaborators settingsWithAileronAndElevator
                                 "Vehicle" UnrecognizedControlSurfaceSettings)
               [("aileron", aileronSettings)] [] "elevator" elevatorSettings).
  - reflexivity.
  - reflexivity.
  - repeat constructor.
  - reflexivity.
Defined.

Lemma control_surface_increments_by_name_witness :
  List.map fst (controlSurfaceIncrementInterfaces interfaceWithAileron)
  = List.map fst (controlSurfaceSettings settingsWithAileron)
  /\
  Forall2 (fun entry increment =>
             createControlSurfaceIncrementAerodynamicCoefficientInterface
               (snd entry) "Vehicle"
             = Ok (snd increment))
          (controlSurfaceSettings settingsWithAileron)
          (controlSurfaceIncrementInterfaces interfaceWithAileron).
Proof.
  apply (@control_surface_increments_by_name
           exampleCollaborators settingsWithAileron "Vehicle" interfaceWithAileron).
  - reflexivity.
  - discriminate.
Defined.

Lemma control_surface_descriptor_refused_witness :
  createControlSurfaceIncrementAerodynamicCoefficientInterface elevatorSettings "Vehicle"
  = Err UnrecognizedControlSurfaceSettings
  /\
  createControlSurfaceIncrementAerodynamicCoefficientInterface flapSettings "Vehicle"
  = Err (UnsupportedDimensionality 7).
Proof.
  split.
  - apply (proj1 (@control_surface_descriptor_refused
                    exampleCollaborators elevatorSettings "Vehicle")).
    discriminate.
  - apply (proj2 (@control_surface_descriptor_refused
                    exampleCollaborators flapSettings "Vehicle")).
    + reflexivity.
    + cbn. lia.
Defined.

Lemma settings_from_files_refused_witness :
  @readTabulatedAerodynamicCoefficientsFromFiles
    exampleCollaborators (fun _ _ _ => Ok bivariateSettings)
    [(1%Z, "Cy.dat"); (2%Z, "Cz.dat")] [(0%Z, "Cm.dat")]
  = Err IndexOutOfRange
  /\
  @readTabulatedAerodynamicCoefficientsFromFiles
    exampleCollaborators (fun _ _ _ => Ok bivariateSettings)
    [(0%Z, "fourVariables.dat")] []
  = Err (UnsupportedFileDimensionality 4).
Proof.
  split.
  - apply (proj1 (@settings_from_files_refused
                    exampleCollaborators (fun _ _ _ => Ok bivariateSettings)
                    [(1%Z, "Cy.dat"); (2%Z, "Cz.dat")] [(0%Z, "Cm.dat")])).
    reflexivity.
  - apply (proj2 (@settings_from_files_refused
                    exampleCollaborators (fun _ _ _ => Ok bivariateSettings)
                    [(0%Z, "fourVariables.dat")] [])
                 "fourVariables.dat" 4%Z).
    + reflexivity.
    + reflexivity.
    + lia.
Defined.

End FactoryBuildExamples.
